(** * Idea Hub: the trends server, the submit form and the results page

    A shallow embedding of the repository's executable logic:
    - [mcp-server]: the Express handler of [GET /api/trends], which forwards
      the cleaned keyword list to the third-party trends backend;
    - [saas-frontend/src/app/page.tsx]: [handleSubmit] of the idea form;
    - [saas-frontend/src/app/result/page.tsx]: the two effects of the results
      page and its rendering decisions.

    JavaScript strings are sequences of UTF-16 code units, values are the
    values [JSON.parse] can produce (plus [undefined]), [sessionStorage] is a
    finite map from strings to strings. *)

From Stdlib Require Import ZArith NArith List Ascii String Bool Lia.
From stdpp Require Import gmap list.
Import ListNotations.

Set Warnings "-register-all".
Local Open Scope N_scope.

(** ** JavaScript strings and values *)

Module JS.

(** A string is a list of UTF-16 code units. *)
Abbreviation jsstring := (list N) (only parsing).

(** An ASCII literal of the source as a JavaScript string. *)
Definition lit (s : string) : jsstring :=
  map N_of_ascii (list_ascii_of_string s).

(** [WhiteSpace] and [LineTerminator] of ECMAScript: the code units that
    [String.prototype.trim] strips. *)
Definition isWhiteSpace (c : N) : bool :=
  (c =? 9) || (c =? 10) || (c =? 11) || (c =? 12) || (c =? 13) || (c =? 32)
  || (c =? 160) || (c =? 5760) || ((8192 <=? c) && (c <=? 8202))
  || (c =? 8232) || (c =? 8233) || (c =? 8239) || (c =? 8287)
  || (c =? 12288) || (c =? 65279).

Fixpoint trimStart (s : jsstring) : jsstring :=
  match s with
  | [] => []
  | c :: s' => if isWhiteSpace c then trimStart s' else s
  end.

Definition trimEnd (s : jsstring) : jsstring := rev (trimStart (rev s)).

(** [s.trim()] *)
Definition trim (s : jsstring) : jsstring := trimEnd (trimStart s).

(** A string that is empty or made of white space only. *)
Definition blank (s : jsstring) : bool := forallb isWhiteSpace s.

(** [s.split(sep)] for a separator of one code unit: the pieces between the
    separators, empty pieces included; the empty string gives one empty
    piece. *)
Fixpoint split (sep : N) (s : jsstring) : list jsstring :=
  match s with
  | [] => [[]]
  | c :: s' =>
      if c =? sep then [] :: split sep s'
      else match split sep s' with
           | [] => [[c]]
           | w :: ws => (c :: w) :: ws
           end
  end.

(** [a.join(sep)] *)
Fixpoint join (sep : jsstring) (a : list jsstring) : jsstring :=
  match a with
  | [] => []
  | [w] => w
  | w :: ws => w ++ sep ++ join sep ws
  end.

(** A JSON number before it is rounded to a double: [mant * 10 ^ exp10],
    negated when [neg]. *)
Record decimal := Decimal { neg : bool; mant : N; exp10 : Z }.

(** The values of the program: what [JSON.parse] builds, plus [undefined]
    for a property that is absent. An object keeps its members in source
    order. *)
Inductive value :=
| VUndefined
| VNull
| VBool (b : bool)
| VNumber (d : decimal)
| VString (s : jsstring)
| VArray (items : list value)
| VObject (members : list (jsstring * value)).

(** A decimal rounds to the double zero when its mantissa is zero or when it
    is at most half the smallest subnormal, [2 ^ -1075] (round to nearest,
    ties to even). *)
Definition rounds_to_zero (d : decimal) : bool :=
  (mant d =? 0)
  || ((exp10 d <? 0)%Z
      && (Z.of_N (mant d) * 2 ^ 1075 <=? 10 ^ (- exp10 d))%Z).

(** [ToBoolean] of a string: the empty string is the only falsy one. *)
Definition nonempty (s : jsstring) : bool :=
  match s with
  | [] => false
  | _ :: _ => true
  end.

(** [ToBoolean]: what [if (v)], [!v] and [v && ...] test. *)
Definition truthy (v : value) : bool :=
  match v with
  | VUndefined | VNull => false
  | VBool b => b
  | VNumber d => negb (rounds_to_zero d)
  | VString s => nonempty s
  | VArray _ | VObject _ => true
  end.

(** The last member named [k]: a later duplicate key overwrites an earlier
    one. *)
Fixpoint lookup_member (k : jsstring) (ms : list (jsstring * value)) : option value :=
  match ms with
  | [] => None
  | (k', v) :: ms' =>
      match lookup_member k ms' with
      | Some v' => Some v'
      | None => if decide (k' = k) then Some v else None
      end
  end.

(** [v.k] for a property [k] that no prototype defines: [None] is the
    [TypeError] of reading a property of [null] or [undefined]; an absent
    property reads as [undefined]. *)
Definition get (v : value) (k : jsstring) : option value :=
  match v with
  | VUndefined | VNull => None
  | VObject ms =>
      match lookup_member k ms with
      | Some x => Some x
      | None => Some VUndefined
      end
  | _ => Some VUndefined
  end.

(** The exact value of a decimal, as the fraction [numer d / denom d] with
    a positive denominator. *)
Definition numer (d : decimal) : Z :=
  ((if neg d then -1 else 1) * Z.of_N (mant d) * 10 ^ Z.max 0 (exp10 d))%Z.
Definition denom (d : decimal) : Z := (10 ^ Z.max 0 (- exp10 d))%Z.

(** The order of the exact values. *)
Definition dle (d1 d2 : decimal) : bool :=
  (numer d1 * denom d2 <=? numer d2 * denom d1)%Z.

(** A [number]: the double nearest to a decimal, or [NaN]. An infinite
    double is a decimal beyond the range, which every comparison below
    orders as the infinity it rounds to. *)
Inductive number :=
| NaN
| Finite (d : decimal).

(** [x >= c] for an integer [c] whose double is even and below which the
    doubles are [2 ^ -(h - 1)] apart: the double nearest to the decimal is
    at least [c] exactly when the decimal is at least [c - 2 ^ -h] (round
    to nearest, ties to even). [NaN] compares false. *)
Definition geq (c h : Z) (x : number) : bool :=
  match x with
  | NaN => false
  | Finite d => ((c * 2 ^ h - 1) * denom d <=? numer d * 2 ^ h)%Z
  end.

(** [x <= c], with the doubles above [c] [2 ^ -(h - 1)] apart. *)
Definition leq (c h : Z) (x : number) : bool :=
  match x with
  | NaN => false
  | Finite d => (numer d * 2 ^ h <=? (c * 2 ^ h + 1) * denom d)%Z
  end.

End JS.

(** ** [JSON.parse]

    The JSON grammar of ECMA-404, as [JSON.parse] accepts it: a recursive
    descent over the code units. The nested productions recurse on a fuel
    bounded by twice the text's length; [OutOfFuel] is kept apart
    from [SyntaxError] and is shown never to be the answer of [run]. *)

Module JSON.
Import JS.

Inductive outcome (A : Type) :=
| Parsed (a : A) (rest : jsstring)
| SyntaxError
| OutOfFuel.
Arguments Parsed {A} a rest.
Arguments SyntaxError {A}.
Arguments OutOfFuel {A}.

Definition ch (a : ascii) : N := N_of_ascii a.
Arguments ch : simpl never.

(** The double quote. *)
Definition dquote : N := 34.

(** JSON white space: tab, line feed, carriage return, space. *)
Definition isWs (c : N) : bool :=
  (c =? 9) || (c =? 10) || (c =? 13) || (c =? 32).

Fixpoint skip_ws (s : jsstring) : jsstring :=
  match s with
  | [] => []
  | c :: s' => if isWs c then skip_ws s' else s
  end.

Definition isDigit (c : N) : bool := (48 <=? c) && (c <=? 57).

(** The longest prefix of digits and what follows it. *)
Fixpoint take_digits (s : jsstring) : list N * jsstring :=
  match s with
  | [] => ([], [])
  | c :: s' =>
      if isDigit c then let (ds, r) := take_digits s' in (c :: ds, r)
      else ([], s)
  end.

Definition digits_value (ds : list N) : N :=
  fold_left (fun a d => a * 10 + (d - 48)) ds 0.

Definition hex_digit (c : N) : option N :=
  if isDigit c then Some (c - 48)
  else if (97 <=? c) && (c <=? 102) then Some (c - 87)
  else if (65 <=? c) && (c <=? 70) then Some (c - 55)
  else None.

(** The code unit of a one-letter escape. *)
Definition unescape (e : N) : option N :=
  if e =? dquote then Some 34
  else if e =? ch "\" then Some 92
  else if e =? ch "/" then Some 47
  else if e =? ch "b" then Some 8
  else if e =? ch "f" then Some 12
  else if e =? ch "n" then Some 10
  else if e =? ch "r" then Some 13
  else if e =? ch "t" then Some 9
  else None.

(** The characters of a string after its opening quote, up to and including
    the closing quote. Control characters are refused; an escape is
    replaced by its code unit. *)
Fixpoint parse_chars (s : jsstring) : option (jsstring * jsstring) :=
  match s with
  | [] => None
  | c :: s' =>
      if c =? dquote then Some ([], s')
      else if c <? 32 then None
      else if c =? ch "\" then
        match s' with
        | [] => None
        | e :: s'' =>
            if e =? ch "u" then
              match s'' with
              | h1 :: h2 :: h3 :: h4 :: s3 =>
                  match hex_digit h1, hex_digit h2, hex_digit h3, hex_digit h4 with
                  | Some a, Some b, Some c', Some d =>
                      match parse_chars s3 with
                      | Some (w, r) => Some (((a * 16 + b) * 16 + c') * 16 + d :: w, r)
                      | None => None
                      end
                  | _, _, _, _ => None
                  end
              | _ => None
              end
            else
              match unescape e with
              | Some u =>
                  match parse_chars s'' with
                  | Some (w, r) => Some (u :: w, r)
                  | None => None
                  end
              | None => None
              end
        end
      else
        match parse_chars s' with
        | Some (w, r) => Some (c :: w, r)
        | None => None
        end
  end.

(** A number: an optional minus sign; an integer part that is a single zero
    or starts with a non-zero digit; an optional fraction of a dot and one or
    more digits; an optional exponent of [e] or [E], an optional sign and one
    or more digits. *)
Definition parse_int (s : jsstring) : option (list N * jsstring) :=
  match s with
  | [] => None
  | c :: s' =>
      if c =? ch "0" then Some ([c], s')
      else if isDigit c then Some (take_digits s)
      else None
  end.

Definition parse_frac (s : jsstring) : option (list N * jsstring) :=
  match s with
  | c :: s' =>
      if c =? ch "." then
        match take_digits s' with
        | ([], _) => None
        | (ds, r) => Some (ds, r)
        end
      else Some ([], s)
  | [] => Some ([], s)
  end.

Definition parse_exp (s : jsstring) : option (Z * jsstring) :=
  match s with
  | c :: s' =>
      if (c =? ch "e") || (c =? ch "E") then
        let (sign, s'') :=
          match s' with
          | g :: t =>
              if g =? ch "-" then (true, t)
              else if g =? ch "+" then (false, t)
              else (false, s')
          | [] => (false, s')
          end in
        match take_digits s'' with
        | ([], _) => None
        | (ds, r) =>
            let e := Z.of_N (digits_value ds) in
            Some (if sign then (- e)%Z else e, r)
        end
      else Some (0%Z, s)
  | [] => Some (0%Z, s)
  end.

Definition parse_number (s : jsstring) : option (decimal * jsstring) :=
  let (sg, s1) :=
    match s with
    | c :: s' => if c =? ch "-" then (true, s') else (false, s)
    | [] => (false, s)
    end in
  match parse_int s1 with
  | None => None
  | Some (ints, s2) =>
      match parse_frac s2 with
      | None => None
      | Some (fracs, s3) =>
          match parse_exp s3 with
          | None => None
          | Some (e, s4) =>
              Some (Decimal sg (digits_value (ints ++ fracs))
                      (e - Z.of_nat (length fracs)), s4)
          end
      end
  end.

(** [strip p s]: what follows the prefix [p] of [s], if [s] starts with it. *)
Fixpoint strip (p s : jsstring) : option jsstring :=
  match p, s with
  | [], _ => Some s
  | a :: p', b :: s' => if a =? b then strip p' s' else None
  | _ :: _, [] => None
  end.

Definition parse_literal (word : string) (v : value) (s : jsstring) : outcome value :=
  match strip (lit word) s with
  | Some r => Parsed v r
  | None => SyntaxError
  end.

Fixpoint parse_value (fuel : nat) (s : jsstring) : outcome value :=
  match fuel with
  | O => OutOfFuel
  | S n =>
      match skip_ws s with
      | [] => SyntaxError
      | c :: s' =>
          if c =? ch "{" then
            match skip_ws s' with
            | d :: r =>
                if d =? ch "}" then Parsed (VObject []) r
                else match parse_members n s' with
                     | Parsed ms r' => Parsed (VObject ms) r'
                     | SyntaxError => SyntaxError
                     | OutOfFuel => OutOfFuel
                     end
            | [] => SyntaxError
            end
          else if c =? ch "[" then
            match skip_ws s' with
            | d :: r =>
                if d =? ch "]" then Parsed (VArray []) r
                else match parse_elements n s' with
                     | Parsed vs r' => Parsed (VArray vs) r'
                     | SyntaxError => SyntaxError
                     | OutOfFuel => OutOfFuel
                     end
            | [] => SyntaxError
            end
          else if c =? dquote then
            match parse_chars s' with
            | Some (w, r) => Parsed (VString w) r
            | None => SyntaxError
            end
          else if c =? ch "t" then parse_literal "true" (VBool true) (c :: s')
          else if c =? ch "f" then parse_literal "false" (VBool false) (c :: s')
          else if c =? ch "n" then parse_literal "null" VNull (c :: s')
          else
            match parse_number (c :: s') with
            | Some (d, r) => Parsed (VNumber d) r
            | None => SyntaxError
            end
      end
  end

with parse_elements (fuel : nat) (s : jsstring) : outcome (list value) :=
  match fuel with
  | O => OutOfFuel
  | S n =>
      match parse_value n s with
      | Parsed v r =>
          match skip_ws r with
          | d :: r' =>
              if d =? ch "," then
                match parse_elements n r' with
                | Parsed vs r'' => Parsed (v :: vs) r''
                | SyntaxError => SyntaxError
                | OutOfFuel => OutOfFuel
                end
              else if d =? ch "]" then Parsed [v] r'
              else SyntaxError
          | [] => SyntaxError
          end
      | SyntaxError => SyntaxError
      | OutOfFuel => OutOfFuel
      end
  end

with parse_members (fuel : nat) (s : jsstring) : outcome (list (jsstring * value)) :=
  match fuel with
  | O => OutOfFuel
  | S n =>
      match skip_ws s with
      | q :: s1 =>
          if q =? dquote then
            match parse_chars s1 with
            | Some (k, s2) =>
                match skip_ws s2 with
                | col :: s3 =>
                    if col =? ch ":" then
                      match parse_value n s3 with
                      | Parsed v r =>
                          match skip_ws r with
                          | d :: r' =>
                              if d =? ch "," then
                                match parse_members n r' with
                                | Parsed ms r'' => Parsed ((k, v) :: ms) r''
                                | SyntaxError => SyntaxError
                                | OutOfFuel => OutOfFuel
                                end
                              else if d =? ch "}" then Parsed [(k, v)] r'
                              else SyntaxError
                          | [] => SyntaxError
                          end
                      | SyntaxError => SyntaxError
                      | OutOfFuel => OutOfFuel
                      end
                    else SyntaxError
                | [] => SyntaxError
                end
            | None => SyntaxError
            end
          else SyntaxError
      | [] => SyntaxError
      end
  end.

(** One value, then only white space up to the end of the text. *)
Definition run (text : jsstring) : outcome value :=
  match parse_value (S (2 * length text)) text with
  | Parsed v r =>
      match skip_ws r with
      | [] => Parsed v []
      | _ :: _ => SyntaxError
      end
  | SyntaxError => SyntaxError
  | OutOfFuel => OutOfFuel
  end.

(** [JSON.parse(text)]: the value, or [None] when it throws. *)
Definition parse (text : jsstring) : option value :=
  match run text with
  | Parsed v _ => Some v
  | _ => None
  end.

End JSON.


(** ** [sessionStorage]

    A finite map from keys to strings, together with the log of the calls
    made on it. *)

Module Storage.
Import JS.

Inductive op :=
| GetItem (k : jsstring)
| SetItem (k v : jsstring)
| RemoveItem (k : jsstring).

Record t := Make { items : gmap (list N) (list N); log : list op }.

Definition getItem (k : jsstring) (s : t) : option (list N) * t :=
  (items s !! k, Make (items s) (log s ++ [GetItem k])).

Definition setItem (k v : jsstring) (s : t) : t :=
  Make (<[k := v]> (items s)) (log s ++ [SetItem k v]).

Definition removeItem (k : jsstring) (s : t) : t :=
  Make (delete k (items s)) (log s ++ [RemoveItem k]).

(** The number of reads of [k] in a log. *)
Definition reads (k : jsstring) (l : list op) : nat :=
  length (List.filter (fun o => match o with
                           | GetItem k' => bool_decide (k' = k)
                           | _ => false
                           end) l).

End Storage.

(** ** The trends server: [GET /api/trends] *)

Module TrendsServer.
Import JS.

(** A parameter of [req.query] as the query parser leaves it: absent, one
    string, or a structured value (the array or object of a repeated or
    bracketed parameter). *)
Inductive param :=
| Absent
| Str (s : jsstring)
| Structured.

Record query := Query { keywords : param; date : param }.

(** The parameters handed to the third-party client. *)
Record search := Search {
  engine : jsstring;
  q : jsstring;
  data_type : jsstring;
  api_key : value
}.

(** What the client of the request observes: a status and a JSON body, or
    no answer at all. *)
Inductive response :=
| Response (status : N) (body : value)
| Unanswered.

(** What the call of [getJson] comes to, as the handler can observe it. The
    handler neither awaits the call nor attaches a handler to its promise:
    a throw before the call returns is caught by the [catch] of the
    handler; a reply reaches the callback; a rejection of the promise (a
    network error, an answer of the backend that the client refuses)
    reaches nothing, the callback is never called. *)
Inductive outcome :=
| Threw (message : jsstring)
| Replied (json : value)
| Rejected.

Definition error_body (e : value) : value := VObject [(lit "error", e)].

(** [!p] *)
Definition missing (p : param) : bool :=
  match p with
  | Absent => true
  | Str s => negb (nonempty s)
  | Structured => false
  end.

(** [const { p = d } = req.query]: the default replaces an absent
    parameter only. *)
Definition with_default (p : param) (d : jsstring) : param :=
  match p with
  | Absent => Str d
  | _ => p
  end.

(** [keywords.split(',').map(k => k.trim()).filter(k => k.length > 0)] *)
Definition clean_keywords (k : jsstring) : list (list N) :=
  List.filter (fun w => nonempty w) (map trim (split (N_of_ascii ",") k)).

(** A [keywords] input with no keyword in it: missing, or a string whose
    comma-separated segments are all empty or white space. *)
Definition no_keyword (p : param) : bool :=
  match p with
  | Absent => true
  | Str k => forallb blank (split (N_of_ascii ",") k)
  | Structured => false
  end.

(** The search sent for a keyword string. *)
Definition search_for (key : value) (k : jsstring) : search :=
  Search (lit "google_trends") (join (lit ",") (clean_keywords k))
    (lit "TIMESERIES") key.

Section Handler.

(** [getJson] of the third-party client and the key read from the
    environment. *)
Variable getJson : search -> outcome.
Variable SERPAPI_KEY : value.

(** The callback handed to [getJson]. Reading [json.error] of [null] or
    [undefined] throws inside the callback, after the handler has returned:
    nothing answers. *)
Definition callback (json : value) : response :=
  match get json (lit "error") with
  | None => Unanswered
  | Some e =>
      if truthy e then Response 500 (error_body e)
      else Response 200 json
  end.

Definition trends (req : query) : response :=
  let keywords := keywords req in
  let date := with_default (date req) (lit "today 12-m") in
  if missing keywords then
    Response 400 (error_body (VString (lit
      "Keywords parameter is required. Use comma-separated values like: ?keywords=coffee,milk,bread")))
  else
    match keywords with
    | Str k =>
        let q := join (lit ",") (clean_keywords k) in
        if negb (nonempty q) then
          Response 400 (error_body (VString (lit "At least one valid keyword is required")))
        else
          match getJson (Search (lit "google_trends") q (lit "TIMESERIES") SERPAPI_KEY) with
          | Threw message => Response 500 (error_body (VString message))
          | Replied json => callback json
          | Rejected => Unanswered
          end
    | _ =>
        (* [keywords.split] is not a function: the [catch] answers *)
        Response 500 (error_body (VString (lit "keywords.split is not a function")))
    end.

End Handler.

(** The shape the consumers read from a trend series. *)
Definition array_length (v : value) : option nat :=
  match v with
  | VArray l => Some (length l)
  | _ => None
  end.

Definition get2 (v : value) (k1 k2 : string) : option value :=
  match get v (lit k1) with
  | Some x => get x (lit k2)
  | None => None
  end.

(** [data.interest_over_time.timeline_data.length] *)
Definition timeline_points (body : value) : option nat :=
  match get2 body "interest_over_time" "timeline_data" with
  | Some a => array_length a
  | None => None
  end.

(** [data.interest_over_time.averages.length] *)
Definition average_entries (body : value) : option nat :=
  match get2 body "interest_over_time" "averages" with
  | Some a => array_length a
  | None => None
  end.

(** [data.search_parameters.date] *)
Definition response_date (r : response) : option value :=
  match r with
  | Response _ body => get2 body "search_parameters" "date"
  | Unanswered => None
  end.

End TrendsServer.

(** The key under which the form hands a result over to the results page. *)
Definition handoff_key : list N := JS.lit "validationResult".

(** ** The idea form: [handleSubmit] of [app/page.tsx] *)

Module HomePage.
Import JS.

Record state := State {
  idea : jsstring;
  isLoading : bool;
  error : option (list N)
}.

Record request := Request {
  url : jsstring;
  method : jsstring;
  content_type : jsstring;
  body : jsstring
}.

(** What [fetch] resolves to: a rejection, or a status and a body text. *)
Inductive fetched :=
| NetworkError
| Http (status : N) (text : jsstring).

(** The browser around the component: the session storage, the requests
    sent so far and the routes pushed so far. *)
Record world := World {
  session : Storage.t;
  sent : list request;
  pushed : list (list N)
}.

(** [response.ok] *)
Definition ok (status : N) : bool := (200 <=? status) && (status <=? 299).

(** [disabled={!idea.trim() || isLoading}] of the submit button. *)
Definition submit_disabled (st : state) : bool :=
  negb (nonempty (trim (idea st))) || isLoading st.

Section Submit.

(** The network, and [JSON.stringify] of the runtime. *)
Variable fetch : request -> fetched.
Variable stringify : value -> list N.

Definition failed (st : state) : state :=
  State (idea st) false (Some (lit "Failed to validate idea. Please try again.")).

Definition handleSubmit (st : state) (w : world) : state * world :=
  if negb (nonempty (trim (idea st))) then (st, w)
  else
    let st1 := State (idea st) true None in
    let req := Request (lit "http://localhost:8001/validate") (lit "POST")
                 (lit "application/json")
                 (stringify (VObject [(lit "query", VString (idea st))])) in
    let w1 := World (session w) (sent w ++ [req]) (pushed w) in
    match fetch req with
    | NetworkError => (failed st1, w1)
    | Http status text =>
        if negb (ok status) then (failed st1, w1)
        else
          match JSON.parse text with
          | None => (failed st1, w1)
          | Some data =>
              let s1 := Storage.setItem handoff_key (stringify data) (session w1) in
              let (_, s2) := Storage.getItem handoff_key s1 in
              (st1, World s2 (sent w1) (pushed w1 ++ [lit "/result"]))
          end
    end.

End Submit.

(** The request [handleSubmit] sends for an idea. *)
Definition validate_request (stringify : value -> list N) (idea : jsstring) : request :=
  Request (lit "http://localhost:8001/validate") (lit "POST")
    (lit "application/json")
    (stringify (VObject [(lit "query", VString idea)])).

End HomePage.

(** ** The results page: [app/result/page.tsx] *)

Module ResultPage.
Import JS.

(** The component: its three state cells and the [hasProcessed] ref. *)
Record page := Page {
  result : value;
  loading : bool;
  error : option (list N);
  hasProcessed : bool
}.

(** [useState(null)], [useState(true)], [useState(null)], [useRef(false)] *)
Definition initial : page := Page VNull true None false.

Definition no_data : list N :=
  lit "No result data found. Please start a new analysis.".
Definition invalid_format : list N :=
  lit "Invalid result data format. Please start a new analysis.".
Definition unable_to_load : list N :=
  lit "Unable to load analysis results".

(** The first effect: read the hand-off once. *)
Definition setup (p : page) (s : Storage.t) : page * Storage.t :=
  if hasProcessed p then (p, s)
  else
    let (resultData, s1) := Storage.getItem handoff_key s in
    let p1 :=
      match resultData with
      | Some text =>
          if nonempty text then
            match JSON.parse text with
            | Some parsedResult => Page parsedResult (loading p) (error p) true
            | None => Page (result p) (loading p) (Some invalid_format) true
            end
          else Page (result p) (loading p) (Some no_data) true
      | None => Page (result p) (loading p) (Some no_data) true
      end in
    (Page (result p1) false (error p1) (hasProcessed p1), s1).

(** The second effect, run with the [result] its render saw. *)
Definition clear (seen : value) (p : page) (s : Storage.t) : page * Storage.t :=
  if truthy seen && negb (hasProcessed p) then
    (Page (result p) (loading p) (error p) true, Storage.removeItem handoff_key s)
  else (p, s).

(** Mounting the page on a session: both effects after the first render
    (which saw [result = null]), then the second effect again after the
    render that follows a change of [result]. *)
Definition mount (s : Storage.t) : page * Storage.t :=
  let (p1, s1) := setup initial s in
  let (p2, s2) := clear (result initial) p1 s1 in
  match result p2 with
  | VNull => (p2, s2)
  | r => clear r p2 s2
  end.

(** What the page shows: one of its three views, or nothing when rendering
    throws. *)
Inductive view :=
| LoadingView
| ErrorView (message : list N)
| ResultsView (r : value)
| Crashed.

(** A value that React accepts as a child: anything but an object, inside
    arrays too. The comparisons and template literals of the markup convert
    such a value without throwing. *)
Fixpoint valid_child (v : value) : bool :=
  match v with
  | VObject _ => false
  | VArray items => forallb valid_child items
  | _ => true
  end.

Definition is_boolean (v : value) : bool :=
  match v with
  | VBool _ => true
  | _ => false
  end.

Definition is_number (v : value) : bool :=
  match v with
  | VNumber _ => true
  | _ => false
  end.

Definition is_string (v : value) : bool :=
  match v with
  | VString _ => true
  | _ => false
  end.

Definition array_of (P : value -> bool) (v : value) : bool :=
  match v with
  | VArray items => forallb P items
  | _ => false
  end.

(** [v.k] read without a throw and with [P] of what is read. *)
Definition prop (v : value) (k : string) (P : value -> bool) : bool :=
  match get v (lit k) with
  | Some x => P x
  | None => false
  end.

(** The markup of the results view evaluates and is accepted by React:
    [result.processing_time.toFixed(1)] needs a number; [result.query], the
    two scores and [result.recommendation] are children;
    [result.trends_data.interest_over_time.averages.map] needs the two
    objects on the way and an array, of entries that can be read and whose
    [query] and [value] are children; [result.recommendations.map] needs an
    array, of children. *)
Definition renders (result : value) : bool :=
  prop result "processing_time" is_number
  && prop result "query" valid_child
  && prop result "opportunity_score" valid_child
  && prop result "risk_score" valid_child
  && prop result "recommendation" valid_child
  && prop result "trends_data" (fun trends_data =>
       prop trends_data "interest_over_time" (fun interest_over_time =>
         prop interest_over_time "averages"
           (array_of (fun avg =>
              prop avg "query" valid_child && prop avg "value" valid_child))))
  && prop result "recommendations" (array_of valid_child).

(** The results branch. *)
Definition results_view (result : value) : view :=
  if renders result then ResultsView result else Crashed.

Definition render (p : page) : view :=
  if loading p then LoadingView
  else
    match error p with
    | Some e =>
        if nonempty e then ErrorView e
        else if negb (truthy (result p)) then ErrorView unable_to_load
        else results_view (result p)
    | None =>
        if negb (truthy (result p)) then ErrorView unable_to_load
        else results_view (result p)
    end.

(** A member [k] that is present and has [P]. *)
Definition member (v : value) (k : string) (P : value -> bool) : bool :=
  match v with
  | VObject ms =>
      match lookup_member (lit k) ms with
      | Some x => P x
      | None => false
      end
  | _ => false
  end.

(** The interface [ValidationResult] that the page declares. *)
Definition conforms (v : value) : bool :=
  member v "success" is_boolean
  && member v "query" is_string
  && member v "recommendations" (array_of is_string)
  && member v "trends_data" (fun trends_data =>
       member trends_data "interest_over_time" (fun interest_over_time =>
         member interest_over_time "timeline_data"
           (array_of (fun point =>
              member point "date" is_string
              && member point "values"
                   (array_of (fun x =>
                      member x "query" is_string
                      && member x "value" is_string
                      && member x "extracted_value" is_number))))
         && member interest_over_time "averages"
              (array_of (fun avg =>
                 member avg "query" is_string && member avg "value" is_number))))
  && member v "opportunity_score" is_number
  && member v "risk_score" is_number
  && member v "recommendation" is_string
  && member v "processing_time" is_number.

(** The classes of a score. *)
Definition score_green : list N := lit "text-green-600 bg-green-100 dark:bg-green-900/30".
Definition score_yellow : list N := lit "text-yellow-600 bg-yellow-100 dark:bg-yellow-900/30".
Definition score_red : list N := lit "text-red-600 bg-red-100 dark:bg-red-900/30".

Inductive score_type := opportunity | risk.

(** The doubles are [2 ^ -50] apart between 4 and 8 and [2 ^ -51] apart
    between 2 and 4. *)
Definition getScoreColor (score : number) (type : score_type) : list N :=
  match type with
  | opportunity =>
      if geq 8 51 score then score_green
      else if geq 6 51 score then score_yellow
      else score_red
  | risk =>
      if leq 3 52 score then score_green
      else if leq 6 51 score then score_yellow
      else score_red
  end.

(** How good a class of a score is: red, yellow, green. *)
Definition score_rank (c : list N) : nat :=
  if decide (c = score_green) then 2
  else if decide (c = score_yellow) then 1
  else 0.

(** An integer as a score. *)
Definition integer_score (n : Z) : number :=
  Finite (Decimal (n <? 0)%Z (Z.abs_N n) 0).





(** The first effect, run once more. *)
Definition rerun (c : page * Storage.t) : page * Storage.t :=
  setup (fst c) (snd c).

(** The rendering layer may run either effect again at any time; the
    second one runs with the [result] of the current render or with the
    one of the first render. *)
Inductive step : page * Storage.t -> page * Storage.t -> Prop :=
| step_setup p s : step (p, s) (setup p s)
| step_clear p s : step (p, s) (clear (result p) p s)
| step_clear_stale p s : step (p, s) (clear (result initial) p s).

Inductive steps : page * Storage.t -> page * Storage.t -> Prop :=
| steps_refl c : steps c c
| steps_step c1 c2 c3 : steps c1 c2 -> step c2 c3 -> steps c1 c3.

(** While the flag is unset there is no result yet. *)
Definition pending (c : page * Storage.t) : Prop :=
  hasProcessed (fst c) = false -> result (fst c) = VNull.

(** What the effects have done to a session [s0]: nothing before the flag
    is set, one read after. *)
Definition only_read (s0 : Storage.t) (c : page * Storage.t) : Prop :=
  pending c /\
  Storage.items (snd c) = Storage.items s0 /\
  ((hasProcessed (fst c) = false /\ Storage.log (snd c) = Storage.log s0) \/
   (hasProcessed (fst c) = true /\
    Storage.log (snd c) = Storage.log s0 ++ [Storage.GetItem handoff_key])).

End ResultPage.

(** ** Batch validation *)

Module Batch.

(** The declarations of the client: [ValidationResponse] and
    [BatchValidationResponse]. *)
Record ValidationResponse := ValidationResponse_ {
  success : bool;
  query : list N;
  recommendations : list (list N);
  error : option (list N)
}.

Record BatchValidationResponse := BatchValidationResponse_ {
  batch_success : bool;
  results : list ValidationResponse;
  total_queries : nat;
  successful_queries : nat;
  failed_queries : nat
}.

Section Orchestrator.

(** One validation: the stages of the orchestrator on one idea, which
    either assemble the recommendations or fail with a message. *)
Variable validate_idea : list N -> list N + list (list N).

(** Modelled from the spec: the single validation of the orchestrator,
    whose service is not among the sources. A fatal failure yields
    [success = false] with the [error] populated and no recommendation;
    otherwise [success = true]. *)
Definition validate (idea : list N) : ValidationResponse :=
  match validate_idea idea with
  | inl message => ValidationResponse_ false idea [] (Some message)
  | inr recs => ValidationResponse_ true idea recs None
  end.

(** Modelled from the spec: the batch endpoint [POST /validate/batch] of the
    orchestrator, whose service is not among the sources. One result per
    input, in order; an item that fails does not stop the others; the
    counts are those of the successes and of the failures. *)
Definition validate_batch (queries : list (list N)) : BatchValidationResponse :=
  let rs := map validate queries in
  BatchValidationResponse_ true rs (length queries)
    (length (List.filter success rs))
    (length (List.filter (fun r => negb (success r)) rs)).

End Orchestrator.

End Batch.

(** ** The NestJS client of the validator: interest over time *)

Module Nest.
Import JS.

(** A call of the HTTP service and what its observable settles to: a
    rejection with the message of its error, or the data of the response. *)
Inductive call :=
| Post (url : jsstring) (body : value)
| Get (url : jsstring) (params : value).

Inductive settled :=
| Rejected (message : jsstring)
| Fulfilled (data : value).

Record HttpException := Exception { message : list N; status : N }.

Definition INTERNAL_SERVER_ERROR : N := 500.

(** [a || b] on values. *)
Definition or_else (a b : value) : value := if truthy a then a else b.

(** A parameter with a default: the default replaces [undefined] only. *)
Definition defaulted (a b : value) : value :=
  match a with
  | VUndefined => b
  | _ => a
  end.

Section Service.

(** [process.env.SAAS_VALIDATOR_API_URL] and the HTTP service. *)
Variable SAAS_VALIDATOR_API_URL : option (list N).
Variable http : call -> settled.

(** [process.env.SAAS_VALIDATOR_API_URL || 'http://localhost:8001'] *)
Definition apiBaseUrl : list N :=
  match SAAS_VALIDATOR_API_URL with
  | Some u => if nonempty u then u else lit "http://localhost:8001"
  | None => lit "http://localhost:8001"
  end.

(** [SaasValidatorService.getInterestOverTime] *)
Definition getInterestOverTime (keyword country timeframe : value) : HttpException + value :=
  let country := defaulted country (VString (lit "US")) in
  let timeframe := defaulted timeframe (VString (lit "today 12-m")) in
  match http (Post (apiBaseUrl ++ lit "/trends/interest-over-time")
                (VObject [(lit "keyword", keyword); (lit "country", country);
                          (lit "timeframe", timeframe)])) with
  | Fulfilled data => inr data
  | Rejected message =>
      inl (Exception (lit "Failed to get interest over time: " ++ message)
             INTERNAL_SERVER_ERROR)
  end.

(** [SaasValidatorController.getInterestOverTime]: [None] when reading the
    body throws. *)
Definition controller_getInterestOverTime (body : value) : option (HttpException + value) :=
  match get body (lit "keyword"), get body (lit "country"), get body (lit "timeframe") with
  | Some keyword, Some country, Some timeframe =>
      Some (getInterestOverTime keyword
              (or_else country (VString (lit "US")))
              (or_else timeframe (VString (lit "today 12-m"))))
  | _, _, _ => None
  end.

End Service.

End Nest.

(** ** Sample data *)

Module Samples.
Import JS.

(** A JSON text written with apostrophes in place of double quotes. *)
Definition text (s : string) : list N :=
  map (fun c => if c =? N_of_ascii "'" then JSON.dquote else c) (lit s).

Definition parsed (t : list N) : value :=
  match JSON.parse t with
  | Some v => v
  | None => VUndefined
  end.

(** A result as the form stores it. *)
Definition stored_result : list N :=
  text "{'success':true,'query':'AI project management','recommendations':['Validate demand first'],'trends_data':{'interest_over_time':{'timeline_data':[],'averages':[]}},'opportunity_score':7,'risk_score':4,'recommendation':'BUILD','processing_time':2.45}".

(** Results whose recommendation is none of the three labels. *)
Definition stored_maybe : list N :=
  text "{'success':true,'query':'AI project management','recommendations':['Talk to ten customers'],'trends_data':{'interest_over_time':{'timeline_data':[{'date':'Jan 1 - 7, 2024','values':[{'query':'AI project management','value':'61','extracted_value':61}]}],'averages':[{'query':'AI project management','value':61}]}},'opportunity_score':6,'risk_score':5,'recommendation':'MAYBE','processing_time':3.1}".

(** A handled failure of the validator: a result without scores, trend data
    or processing time. *)
Definition stored_failure : list N :=
  text "{'success':false,'query':'AI project management','recommendations':[],'error':'model call failed'}".

(** The response documented in the server's README: one timeline point and
    two averages. *)
Definition readme_reply : value :=
  parsed (text "{'search_metadata':{'id':'628e1083de983400a3b29c2e','status':'Success','created_at':'2022-05-25 11:18:27 UTC','total_time_taken':1.89},'search_parameters':{'engine':'google_trends','q':'coffee,milk,bread,pasta,steak','date':'today 12-m','data_type':'TIMESERIES'},'interest_over_time':{'timeline_data':[{'date':'May 30 - Jun 5, 2021','timestamp':'1622304000','values':[{'query':'coffee','value':'80','extracted_value':80},{'query':'milk','value':'58','extracted_value':58}]}],'averages':[{'query':'coffee','value':84},{'query':'milk','value':55}]}}").

(** A reply of the backend that reports a failure. *)
Definition failure_reply : value :=
  VObject [(lit "search_metadata", VObject [(lit "status", VString (lit "Success"))]);
           (lit "error",
            VString (lit "Google Trends hasn't returned any results for this query."))].

(** The JSON text of [null]. *)
Definition stored_null : list N := text "null".

(** A session that holds [t] under the hand-off key. *)
Definition session_with (t : list N) : Storage.t :=
  Storage.Make {[ handoff_key := t ]} [].

End Samples.

(** * Properties *)

Local Open Scope nat_scope.

(** ** The parser always answers *)

Section ParserFacts.
Import JS JSON.

Lemma skip_ws_length s : length (skip_ws s) <= length s.
Proof. induction s as [|c s IH]; simpl; [lia|]. destruct (isWs c); simpl; lia. Qed.

Lemma take_digits_length s : length (snd (take_digits s)) <= length s.
Proof.
  induction s as [|c s IH]; simpl; [lia|].
  destruct (isDigit c); simpl; [|lia].
  destruct (take_digits s); simpl in *; lia.
Qed.

Lemma parse_chars_length_aux n :
  forall s w r, length s <= n -> parse_chars s = Some (w, r) -> length r < length s.
Proof.
  induction n as [|n IH]; intros s w r Hn.
  { destruct s; simpl in *; [discriminate | lia]. }
  destruct s as [|c s]; simpl; [discriminate|]. simpl in Hn.
  destruct (_ =? dquote)%N. { intros H; inversion H; subst; simpl; lia. }
  destruct (_ <? _)%N; [discriminate|].
  destruct (_ =? _)%N.
  - destruct s as [|e s]; [discriminate|].
    destruct (_ =? _)%N.
    + destruct s as [|h1 [|h2 [|h3 [|h4 s]]]]; try discriminate.
      destruct (hex_digit h1), (hex_digit h2), (hex_digit h3), (hex_digit h4);
        try discriminate.
      destruct (parse_chars s) as [[w' r']|] eqn:E; [|discriminate].
      intros H; inversion H; subst. apply IH in E; simpl in *; lia.
    + destruct (unescape e); [|discriminate].
      destruct (parse_chars s) as [[w' r']|] eqn:E; [|discriminate].
      intros H; inversion H; subst. apply IH in E; simpl in *; lia.
  - destruct (parse_chars s) as [[w' r']|] eqn:E; [|discriminate].
    intros H; inversion H; subst. apply IH in E; simpl in *; lia.
Qed.

Lemma parse_chars_length s w r :
  parse_chars s = Some (w, r) -> length r < length s.
Proof. apply (parse_chars_length_aux (length s)). lia. Qed.

Lemma parse_int_length s ds r : parse_int s = Some (ds, r) -> length r <= length s.
Proof.
  unfold parse_int. destruct s as [|c t]; [discriminate|].
  destruct (_ =? _)%N; [intros H; inversion H; subst; simpl; lia|].
  destruct (isDigit c); [|discriminate]. intros H. injection H as H.
  change (take_digits (c :: t) = (ds, r)) in H.
  pose proof (take_digits_length (c :: t)) as L. rewrite H in L. exact L.
Qed.

Lemma parse_frac_length s ds r : parse_frac s = Some (ds, r) -> length r <= length s.
Proof.
  unfold parse_frac. destruct s as [|c t]; [intros H; inversion H; subst; lia|].
  destruct (_ =? _)%N; [|intros H; inversion H; subst; lia].
  pose proof (take_digits_length t) as L.
  destruct (take_digits t) as [[|x xs] r']; [discriminate|].
  intros H; inversion H; subst. simpl in *; lia.
Qed.

Lemma parse_exp_length s e r : parse_exp s = Some (e, r) -> length r <= length s.
Proof.
  unfold parse_exp. destruct s as [|c t]; [intros H; inversion H; subst; lia|].
  destruct (_ || _); [|intros H; inversion H; subst; lia].
  destruct (match t with [] => _ | _ => _ end) as [sign t'] eqn:Et.
  assert (length t' <= length t).
  { destruct t as [|g u]; [inversion Et; subst; lia|].
    destruct (_ =? _)%N; [inversion Et; subst; simpl; lia|].
    destruct (_ =? _)%N; inversion Et; subst; simpl; lia. }
  pose proof (take_digits_length t') as L.
  destruct (take_digits t') as [[|x xs] r']; [discriminate|].
  intros H'; inversion H'; subst. simpl in *; lia.
Qed.

Lemma parse_number_length s d r :
  parse_number s = Some (d, r) -> length r <= length s.
Proof.
  unfold parse_number.
  destruct (match s with [] => _ | _ => _ end) as [sg s1] eqn:E0.
  assert (H1 : length s1 <= length s).
  { destruct s as [|c s']; [inversion E0; subst; lia|].
    destruct (_ =? _)%N; inversion E0; subst; simpl; lia. }
  destruct (parse_int s1) as [[ints s2]|] eqn:E1; [|discriminate].
  destruct (parse_frac s2) as [[fracs s3]|] eqn:E2; [|discriminate].
  destruct (parse_exp s3) as [[e s4]|] eqn:E3; [|discriminate].
  apply parse_int_length in E1. apply parse_frac_length in E2.
  apply parse_exp_length in E3.
  intros H; inversion H; subst. lia.
Qed.

Lemma strip_length p : forall s r, strip p s = Some r -> length r <= length s.
Proof.
  induction p as [|a p IH]; intros [|b s] r; simpl; try discriminate.
  - intros H; inversion H; subst; simpl; lia.
  - intros H; inversion H; subst; simpl; lia.
  - destruct (_ =? _)%N; [|discriminate]. intros H. apply IH in H. lia.
Qed.

Lemma parse_literal_length w v s v' r :
  parse_literal w v s = Parsed v' r -> length r <= length s.
Proof.
  unfold parse_literal. destruct (strip (lit w) s) eqn:E; [|discriminate].
  intros H; inversion H; subst. eapply strip_length; eauto.
Qed.

End ParserFacts.

Ltac break_parser :=
  match goal with
  | |- context [match JSON.skip_ws ?s with _ => _ end] =>
      let L := fresh "L" in
      pose proof (skip_ws_length s) as L; destruct (JSON.skip_ws s) eqn:?; simpl in L
  | |- context [if ?b then _ else _] => destruct b eqn:?
  | |- context [match JSON.parse_chars ?s with _ => _ end] =>
      destruct (JSON.parse_chars s) as [[? ?]|] eqn:?
  | |- context [match JSON.parse_number ?s with _ => _ end] =>
      destruct (JSON.parse_number s) as [[? ?]|] eqn:?
  | |- context [match JSON.parse_value ?n ?s with _ => _ end] =>
      destruct (JSON.parse_value n s) eqn:?
  | |- context [match JSON.parse_elements ?n ?s with _ => _ end] =>
      destruct (JSON.parse_elements n s) eqn:?
  | |- context [match JSON.parse_members ?n ?s with _ => _ end] =>
      destruct (JSON.parse_members n s) eqn:?
  end.

Ltac rest_facts IHv IHe IHm :=
  repeat match goal with
  | H : JSON.parse_value _ _ = JSON.Parsed _ _ |- _ => apply IHv in H
  | H : JSON.parse_elements _ _ = JSON.Parsed _ _ |- _ => apply IHe in H
  | H : JSON.parse_members _ _ = JSON.Parsed _ _ |- _ => apply IHm in H
  | H : JSON.parse_chars _ = Some _ |- _ => apply parse_chars_length in H
  | H : JSON.parse_number _ = Some _ |- _ => apply parse_number_length in H
  | H : JSON.parse_literal _ _ _ = JSON.Parsed _ _ |- _ =>
      apply parse_literal_length in H
  end.

Section ParserTotal.
Import JS JSON.

(** What a production leaves is never longer than what it was given. *)
Lemma parse_rest_le n :
  (forall s v r, parse_value n s = Parsed v r -> length r <= length s) /\
  (forall s vs r, parse_elements n s = Parsed vs r -> length r <= length s) /\
  (forall s ms r, parse_members n s = Parsed ms r -> length r <= length s).
Proof.
  induction n as [|n (IHv & IHe & IHm)]; [repeat split; discriminate|].
  repeat split; intros s x r; simpl; repeat break_parser;
    intros H; try discriminate; try (injection H as <- <-);
    rest_facts IHv IHe IHm; simpl in *; lia.
Qed.

(** A fuel above twice the length of the text is never used up. *)
Lemma fuel_enough n :
  (forall s, 2 * length s < n -> parse_value n s <> OutOfFuel) /\
  (forall s, 2 * length s + 1 < n -> parse_elements n s <> OutOfFuel) /\
  (forall s, 2 * length s + 1 < n -> parse_members n s <> OutOfFuel).
Proof.
  induction n as [|n (IHv & IHe & IHm)]; [repeat split; intros; lia|].
  destruct (parse_rest_le n) as (Rv & Re & Rm).
  repeat split; intros s Hn; simpl; repeat break_parser; try discriminate;
    try (unfold parse_literal; destruct (strip _ _); discriminate);
    rest_facts Rv Re Rm; exfalso;
    match goal with
    | H : parse_value n ?t = OutOfFuel |- _ =>
        apply (IHv t); [simpl in *; lia | exact H]
    | H : parse_elements n ?t = OutOfFuel |- _ =>
        apply (IHe t); [simpl in *; lia | exact H]
    | H : parse_members n ?t = OutOfFuel |- _ =>
        apply (IHm t); [simpl in *; lia | exact H]
    end.
Qed.

(** [JSON.parse] answers on every text: a value or a syntax error. *)
Theorem run_never_out_of_fuel text : run text <> OutOfFuel.
Proof.
  unfold run.
  destruct (parse_value _ text) eqn:E; try discriminate.
  - destruct (skip_ws rest); discriminate.
  - exfalso. apply (proj1 (fuel_enough _) text) in E; [exact E | lia].
Qed.

(** [parse] throws exactly on a syntax error. *)
Lemma parse_None_iff text : parse text = None <-> run text = SyntaxError.
Proof.
  unfold parse. pose proof (run_never_out_of_fuel text).
  destruct (run text); split; congruence.
Qed.

Lemma parse_empty : parse [] = None.
Proof. reflexivity. Qed.

(** The parser on some texts. *)
Example parse_accepts :
  parse (Samples.text " [ ] ") = Some (VArray []) /\
  parse (Samples.text "{'k':'v', 'n':null}") =
    Some (VObject [(lit "k", VString (lit "v")); (lit "n", VNull)]) /\
  parse (Samples.text "-0.50e+2") = Some (VNumber (Decimal true 50 0)) /\
  parse (Samples.text "'a\u0041\n'") = Some (VString [97; 65; 10]%N) /\
  parse (Samples.text "[true,false]") = Some (VArray [VBool true; VBool false]).
Proof. repeat split. Qed.

Example parse_rejects :
  parse (lit "01") = None /\ parse (lit "[1,]") = None /\
  parse (lit "nul") = None /\ parse (lit "1.") = None /\
  parse (lit "null x") = None /\ parse (lit "undefined") = None /\
  parse (Samples.text "{'a':1,}") = None /\ parse (Samples.text "'\x'") = None /\
  parse (Samples.text "{a:1}") = None /\ parse (lit "   ") = None.
Proof. repeat split. Qed.

(** Zero in any spelling is falsy, and so is a number below half the
    smallest subnormal. *)
Example falsy_numbers :
  (truthy <$> parse (lit "-0.0e5")) = Some false /\
  (truthy <$> parse (lit "1e-400")) = Some false /\
  (truthy <$> parse (lit "5e-324")) = Some true.
Proof. repeat split. Qed.

End ParserTotal.

(** ** Trimming and splitting *)

Section Strings.
Import JS.

Lemma trimStart_blank s : blank s = true -> trimStart s = [].
Proof.
  unfold blank. induction s as [|c s IH]; simpl; [reflexivity|].
  destruct (isWhiteSpace c); simpl; [exact IH | discriminate].
Qed.

Lemma trimStart_nil s : trimStart s = [] -> blank s = true.
Proof.
  unfold blank. induction s as [|c s IH]; simpl; [reflexivity|].
  destruct (isWhiteSpace c); simpl; [exact IH | discriminate].
Qed.

(** What [trimStart] keeps starts with a character that is not white
    space. *)
Lemma trimStart_head s c t : trimStart s = c :: t -> isWhiteSpace c = false.
Proof.
  induction s as [|a s IH]; simpl; [discriminate|].
  destruct (isWhiteSpace a) eqn:E; [exact IH|].
  intros H; inversion H; subst; exact E.
Qed.

Lemma blank_app s t : blank (s ++ t) = blank s && blank t.
Proof. unfold blank. apply forallb_app. Qed.

Lemma blank_rev s : blank (rev s) = blank s.
Proof.
  induction s as [|c s IH]; [reflexivity|].
  simpl rev. rewrite blank_app, IH. unfold blank; simpl.
  destruct (isWhiteSpace c), (forallb isWhiteSpace s); reflexivity.
Qed.

(** [trim] leaves nothing exactly of the blank strings. *)
Lemma trim_nil_iff s : trim s = [] <-> blank s = true.
Proof.
  unfold trim, trimEnd. split.
  - intros H.
    assert (H1 : trimStart (rev (trimStart s)) = []).
    { destruct (trimStart (rev (trimStart s))) as [|x l]; [reflexivity|].
      simpl in H. destruct (rev l); discriminate. }
    apply trimStart_nil in H1. rewrite blank_rev in H1.
    destruct (trimStart s) as [|c t] eqn:E; [apply trimStart_nil, E|].
    apply trimStart_head in E. unfold blank in H1; simpl in H1.
    rewrite E in H1. discriminate.
  - intros H. rewrite (trimStart_blank s H). reflexivity.
Qed.

Lemma nonempty_false s : nonempty s = false <-> s = [].
Proof. destruct s; simpl; split; congruence. Qed.

(** [split] always gives at least one piece. *)
Lemma split_not_nil sep s : split sep s <> [].
Proof.
  destruct s as [|c s]; simpl; [discriminate|].
  destruct (c =? sep)%N; [discriminate|]. destruct (split sep s); discriminate.
Qed.

(** Joining strings the first of which is not empty gives a string that is
    not empty. *)
Lemma join_nonempty sep w ws : nonempty w = true -> nonempty (join sep (w :: ws)) = true.
Proof.
  destruct w as [|c w]; [discriminate|]. intros _.
  destruct ws; reflexivity.
Qed.

End Strings.

(** ** The trends server *)

Section TrendsFacts.
Import JS TrendsServer.

Variable getJson : search -> outcome.
Variable key : value.

Lemma clean_keywords_blank k :
  forallb blank (split (N_of_ascii ",") k) = true -> clean_keywords k = [].
Proof.
  unfold clean_keywords. induction (split _ k) as [|w ws IH]; simpl; [reflexivity|].
  intros H. apply andb_true_iff in H as [Hw Hws].
  apply trim_nil_iff in Hw. rewrite Hw. simpl. exact (IH Hws).
Qed.

Lemma clean_keywords_head k w ws : clean_keywords k = w :: ws -> nonempty w = true.
Proof.
  unfold clean_keywords. intros H.
  assert (In w (List.filter (fun w => nonempty w) (map trim (split (N_of_ascii ",") k))))
    as Hin by (rewrite H; left; reflexivity).
  apply filter_In in Hin. tauto.
Qed.

(** A request with a keyword passes both guards. *)
Lemma valid_keywords_pass k :
  clean_keywords k <> [] ->
  missing (Str k) = false /\ nonempty (join (lit ",") (clean_keywords k)) = true.
Proof.
  intros H. split.
  - destruct k; [exfalso; apply H; reflexivity | reflexivity].
  - destruct (clean_keywords k) as [|w ws] eqn:E; [congruence|].
    apply join_nonempty. eapply clean_keywords_head; eauto.
Qed.

(** The handler on a request with a keyword: the answer is decided by what
    the call of the backend comes to. *)
Lemma trends_valid k d :
  clean_keywords k <> [] ->
  trends getJson key (Query (Str k) d) =
    match getJson (search_for key k) with
    | Threw message => Response 500 (error_body (VString message))
    | Replied json =>
        match get json (lit "error") with
        | None => Unanswered
        | Some e =>
            if truthy e then Response 500 (error_body e)
            else Response 200 json
        end
    | Rejected => Unanswered
    end.
Proof.
  intros H. destruct (valid_keywords_pass k H) as [Hm Hq].
  unfold trends. cbn [keywords]. rewrite Hm, Hq. reflexivity.
Qed.

End TrendsFacts.

(** C2. A [keywords] input that is missing, empty, or made of empty and
    white-space segments only is answered with status 400 and a body that
    holds an error message and nothing else; the backend is not consulted,
    so no series, whole or partial, is returned. *)
Theorem blank_keywords_rejected
  (getJson : TrendsServer.search -> TrendsServer.outcome) (key : JS.value)
  (req : TrendsServer.query) :
  TrendsServer.no_keyword (TrendsServer.keywords req) = true ->
  exists message,
    JS.nonempty message = true /\
    TrendsServer.trends getJson key req =
      TrendsServer.Response 400 (TrendsServer.error_body (JS.VString message)).
Proof.
  destruct req as [kw d]. cbn [TrendsServer.keywords].
  destruct kw as [|k|]; cbn [TrendsServer.no_keyword]; [| |discriminate]; intros H.
  - eexists. split; [|reflexivity]. reflexivity.
  - unfold TrendsServer.trends. cbn [TrendsServer.keywords].
    destruct (TrendsServer.missing (TrendsServer.Str k)).
    + eexists. split; [|reflexivity]. reflexivity.
    + rewrite (clean_keywords_blank k H). eexists. split; [|reflexivity]. reflexivity.
Qed.

Lemma blank_keywords_rejected_witness :
  exists message,
    JS.nonempty message = true /\
    TrendsServer.trends (fun _ => TrendsServer.Replied Samples.readme_reply) JS.VUndefined
      (TrendsServer.Query (TrendsServer.Str (JS.lit " , ,,  ")) TrendsServer.Absent) =
      TrendsServer.Response 400 (TrendsServer.error_body (JS.VString message)).
Proof. apply blank_keywords_rejected. reflexivity. Defined.

(** C3, as stated, fails: the handler has no generator of its own and
    answers with the reply of the backend. With the reply documented in the
    README (one timeline point, two averages) the query
    [coffee,milk,bread,pasta,steak] is answered with one point, not 52. *)
Lemma fixed_series_refuted :
  ~ (forall (getJson : TrendsServer.search -> TrendsServer.outcome) (key : JS.value)
            (k : list N),
       TrendsServer.clean_keywords k <> [] ->
       exists body,
         TrendsServer.trends getJson key
           (TrendsServer.Query (TrendsServer.Str k) TrendsServer.Absent) =
           TrendsServer.Response 200 body /\
         TrendsServer.timeline_points body = Some 52 /\
         TrendsServer.average_entries body =
           Some (length (TrendsServer.clean_keywords k))).
Proof.
  intros H.
  destruct (H (fun _ => TrendsServer.Replied Samples.readme_reply) JS.VUndefined
              (JS.lit "coffee,milk,bread,pasta,steak")) as (body & Hr & Hp & _).
  - vm_compute. discriminate.
  - vm_compute in Hr. injection Hr as <-. vm_compute in Hp. discriminate.
Qed.

(** C3, amended. For a request with at least one keyword, whatever its date
    range, the handler sends the backend the cleaned keywords joined by
    commas and, when the reply carries no error, answers 200 with that reply
    unchanged: its timeline points and averages are the backend's. *)
Theorem valid_keywords_forwarded
  (getJson : TrendsServer.search -> TrendsServer.outcome) (key : JS.value)
  (k : list N) (d : TrendsServer.param) (reply e : JS.value) :
  TrendsServer.clean_keywords k <> [] ->
  getJson (TrendsServer.search_for key k) = TrendsServer.Replied reply ->
  JS.get reply (JS.lit "error") = Some e ->
  JS.truthy e = false ->
  let answer := TrendsServer.trends getJson key (TrendsServer.Query (TrendsServer.Str k) d) in
  answer = TrendsServer.Response 200 reply /\
  TrendsServer.q (TrendsServer.search_for key k) =
    JS.join (JS.lit ",") (TrendsServer.clean_keywords k).
Proof.
  intros Hk Hg He Ht answer. subst answer.
  rewrite (trends_valid getJson key k d Hk), Hg, He, Ht. split; reflexivity.
Qed.

Lemma valid_keywords_forwarded_witness :
  let getJson := fun _ : TrendsServer.search => TrendsServer.Replied Samples.readme_reply in
  let k := JS.lit "coffee,milk,bread,pasta,steak" in
  (TrendsServer.trends getJson JS.VUndefined
     (TrendsServer.Query (TrendsServer.Str k) TrendsServer.Absent) =
     TrendsServer.Response 200 Samples.readme_reply /\
   TrendsServer.q (TrendsServer.search_for JS.VUndefined k) =
     JS.join (JS.lit ",") (TrendsServer.clean_keywords k)) /\
  length (TrendsServer.clean_keywords k) = 5 /\
  TrendsServer.timeline_points Samples.readme_reply = Some 1.
Proof.
  intros getJson k. split; [|split; reflexivity].
  apply (valid_keywords_forwarded getJson JS.VUndefined k TrendsServer.Absent
           Samples.readme_reply JS.VUndefined).
  - vm_compute. discriminate.
  - reflexivity.
  - reflexivity.
  - reflexivity.
Defined.

(** C5. The handler binds [date], with its default, and never uses it: two
    requests that differ in their date range only are answered alike, so
    the date of the request cannot be what the response carries. *)
Theorem date_parameter_ignored
  (getJson : TrendsServer.search -> TrendsServer.outcome) (key : JS.value)
  (kw d1 d2 : TrendsServer.param) :
  TrendsServer.trends getJson key (TrendsServer.Query kw d1) =
  TrendsServer.trends getJson key (TrendsServer.Query kw d2).
Proof. reflexivity. Qed.

(** The binding itself follows the claim: the default window when the
    parameter is absent, any supplied token as it is. *)
Lemma date_default_binding :
  TrendsServer.with_default TrendsServer.Absent (JS.lit "today 12-m") =
    TrendsServer.Str (JS.lit "today 12-m") /\
  forall token, TrendsServer.with_default (TrendsServer.Str token) (JS.lit "today 12-m") =
    TrendsServer.Str token.
Proof. split; reflexivity. Qed.

(** At [?keywords=coffee&date=today 3-m], with a backend that answers for
    its own default window, the response carries [today 12-m]. *)
Example date_three_months_lost :
  TrendsServer.response_date
    (TrendsServer.trends (fun _ => TrendsServer.Replied Samples.readme_reply) JS.VUndefined
       (TrendsServer.Query (TrendsServer.Str (JS.lit "coffee"))
          (TrendsServer.Str (JS.lit "today 3-m")))) =
    Some (JS.VString (JS.lit "today 12-m")).
Proof. reflexivity. Qed.

(** C6. A failure of the backend that rejects the call, instead of calling
    back, is answered by nothing: for a request with a keyword the handler
    then sends no response at all, neither the 500 with the message of the
    backend nor anything else. The call is neither awaited nor caught, so
    the [catch] that would answer 500 is never reached. *)
Theorem rejected_backend_unanswered
  (getJson : TrendsServer.search -> TrendsServer.outcome) (key : JS.value)
  (k : list N) (d : TrendsServer.param) :
  TrendsServer.clean_keywords k <> [] ->
  getJson (TrendsServer.search_for key k) = TrendsServer.Rejected ->
  TrendsServer.trends getJson key (TrendsServer.Query (TrendsServer.Str k) d) =
    TrendsServer.Unanswered.
Proof.
  intros Hk Hg. rewrite (trends_valid getJson key k d Hk), Hg. reflexivity.
Qed.

Lemma rejected_backend_unanswered_witness :
  TrendsServer.trends (fun _ => TrendsServer.Rejected) JS.VUndefined
    (TrendsServer.Query (TrendsServer.Str (JS.lit "coffee")) TrendsServer.Absent) =
    TrendsServer.Unanswered.
Proof.
  apply (rejected_backend_unanswered (fun _ => TrendsServer.Rejected)).
  - vm_compute. discriminate.
  - reflexivity.
Defined.

(** X18. The sibling path does answer: when the reply that reaches the
    callback carries an error, the handler answers 500 with a body that
    holds that very error and nothing else; no series takes its place. *)
Theorem reported_error_surfaced
  (getJson : TrendsServer.search -> TrendsServer.outcome) (key : JS.value)
  (k : list N) (d : TrendsServer.param) (reply e : JS.value) :
  TrendsServer.clean_keywords k <> [] ->
  getJson (TrendsServer.search_for key k) = TrendsServer.Replied reply ->
  JS.get reply (JS.lit "error") = Some e ->
  JS.truthy e = true ->
  TrendsServer.trends getJson key (TrendsServer.Query (TrendsServer.Str k) d) =
    TrendsServer.Response 500 (TrendsServer.error_body e).
Proof.
  intros Hk Hg He Ht.
  rewrite (trends_valid getJson key k d Hk), Hg, He, Ht. reflexivity.
Qed.

Lemma reported_error_surfaced_witness :
  TrendsServer.trends (fun _ => TrendsServer.Replied Samples.failure_reply) JS.VUndefined
    (TrendsServer.Query (TrendsServer.Str (JS.lit "coffee,milk")) TrendsServer.Absent) =
    TrendsServer.Response 500
      (TrendsServer.error_body (JS.VString (JS.lit
        "Google Trends hasn't returned any results for this query."))).
Proof.
  apply (reported_error_surfaced (fun _ => TrendsServer.Replied Samples.failure_reply)
           JS.VUndefined (JS.lit "coffee,milk") TrendsServer.Absent Samples.failure_reply).
  - vm_compute. discriminate.
  - reflexivity.
  - reflexivity.
  - reflexivity.
Defined.

(** ** The idea form *)

(** C7. An idea that is empty or white space only makes [handleSubmit]
    return at its guard: the component and the browser are left as they
    were, so no request is sent, nothing is stored and no route is pushed;
    the submit button is disabled for such an idea as well. *)
Theorem empty_idea_never_submitted
  (fetch : HomePage.request -> HomePage.fetched) (stringify : JS.value -> list N)
  (st : HomePage.state) (w : HomePage.world) :
  JS.blank (HomePage.idea st) = true ->
  HomePage.handleSubmit fetch stringify st w = (st, w) /\
  HomePage.sent (snd (HomePage.handleSubmit fetch stringify st w)) = HomePage.sent w /\
  HomePage.submit_disabled st = true.
Proof.
  intros H. apply trim_nil_iff in H.
  unfold HomePage.handleSubmit, HomePage.submit_disabled. rewrite H. simpl.
  repeat split.
Qed.

Lemma empty_idea_never_submitted_witness :
  let fetch := fun _ : HomePage.request => HomePage.Http 200 Samples.stored_result in
  let stringify := fun _ : JS.value => Samples.stored_result in
  let st := HomePage.State (JS.lit "   ") false None in
  let w := HomePage.World (Storage.Make ∅ []) [] [] in
  HomePage.handleSubmit fetch stringify st w = (st, w) /\
  HomePage.sent (snd (HomePage.handleSubmit fetch stringify st w)) = HomePage.sent w /\
  HomePage.submit_disabled st = true.
Proof.
  intros fetch stringify st w.
  apply (empty_idea_never_submitted fetch stringify st w). reflexivity.
Defined.

(** The guard is the only way out before the request: an idea with a
    character that is not white space is sent. *)
Lemma idea_with_text_is_sent
  (fetch : HomePage.request -> HomePage.fetched) (stringify : JS.value -> list N)
  (st : HomePage.state) (w : HomePage.world) :
  JS.blank (HomePage.idea st) = false ->
  length (HomePage.sent (snd (HomePage.handleSubmit fetch stringify st w))) =
    S (length (HomePage.sent w)).
Proof.
  intros H. unfold HomePage.handleSubmit.
  destruct (JS.nonempty (JS.trim (HomePage.idea st))) eqn:E.
  - simpl. destruct (fetch _) as [|status text]; simpl.
    + rewrite length_app. simpl. lia.
    + destruct (HomePage.ok status); simpl.
      * destruct (JSON.parse text); simpl; rewrite length_app; simpl; lia.
      * rewrite length_app. simpl. lia.
  - apply nonempty_false, trim_nil_iff in E. congruence.
Qed.

(** ** The results page *)

Section ResultPageFacts.
Import JS ResultPage.

(** A read adds one to the count of the reads of its key. *)
Lemma reads_get k l : Storage.reads k (l ++ [Storage.GetItem k]) = S (Storage.reads k l).
Proof.
  unfold Storage.reads. rewrite List.filter_app, length_app.
  cbn [List.filter]. rewrite bool_decide_eq_true_2 by reflexivity. simpl. lia.
Qed.

(** Once the flag is set the first effect does nothing at all. *)
Lemma setup_processed p s : hasProcessed p = true -> setup p s = (p, s).
Proof. intros H. unfold setup. rewrite H. reflexivity. Qed.

(** Every path of the first effect sets the flag. *)
Lemma setup_sets_flag p s : hasProcessed (fst (setup p s)) = true.
Proof.
  unfold setup. destruct (hasProcessed p) eqn:E; [exact E|].
  simpl. destruct (Storage.items s !! handoff_key) as [text|]; [|reflexivity].
  destruct (nonempty text); [|reflexivity].
  destruct (JSON.parse text); reflexivity.
Qed.

(** The first effect never writes to the storage. *)
Lemma setup_items p s : Storage.items (snd (setup p s)) = Storage.items s.
Proof. unfold setup. destruct (hasProcessed p); reflexivity. Qed.

(** Once the flag is set the second effect does nothing either. *)
Lemma clear_processed seen p s : hasProcessed p = true -> clear seen p s = (p, s).
Proof.
  intros H. unfold clear. rewrite H, andb_false_r. reflexivity.
Qed.

Lemma clear_null p s : clear VNull p s = (p, s).
Proof. reflexivity. Qed.

(** Mounting is the first effect alone: the second one finds the flag set
    whenever it finds a result. *)
Lemma mount_setup s : mount s = setup initial s.
Proof.
  unfold mount. destruct (setup initial s) as [p1 s1] eqn:E.
  change (result initial) with VNull. rewrite clear_null.
  assert (H : hasProcessed p1 = true)
    by (change p1 with (fst (p1, s1)); rewrite <- E; apply setup_sets_flag).
  destruct (result p1); try reflexivity; apply clear_processed, H.
Qed.

Lemma mount_items s : Storage.items (snd (mount s)) = Storage.items s.
Proof. rewrite mount_setup. apply setup_items. Qed.

(** The page a mount gives when the hand-off parses. *)
Lemma mount_parsed s text v :
  Storage.items s !! handoff_key = Some text ->
  JSON.parse text = Some v ->
  fst (mount s) = Page v false None true.
Proof.
  intros Hs Hp. rewrite mount_setup. unfold setup. simpl. rewrite Hs.
  destruct text as [|c t]; [rewrite parse_empty in Hp; discriminate|].
  simpl. rewrite Hp. reflexivity.
Qed.

Lemma step_pending c c' : pending c -> step c c' -> pending c'.
Proof.
  intros Hc Hs. destruct Hs as [p s|p s|p s]; unfold pending in *; simpl in Hc.
  - rewrite setup_sets_flag. discriminate.
  - destruct (hasProcessed p) eqn:E.
    + rewrite clear_processed by exact E. simpl. rewrite E. discriminate.
    + rewrite (Hc eq_refl), clear_null. simpl. intros _. exact (Hc eq_refl).
  - change (result initial) with VNull. rewrite clear_null. exact Hc.
Qed.

(** No run of the effects removes or changes an item of the storage. *)
Lemma step_items c c' :
  pending c -> step c c' -> Storage.items (snd c') = Storage.items (snd c).
Proof.
  intros Hc Hs. destruct Hs as [p s|p s|p s]; unfold pending in Hc; simpl in Hc.
  - apply setup_items.
  - destruct (hasProcessed p) eqn:E.
    + rewrite clear_processed by exact E. reflexivity.
    + rewrite (Hc eq_refl). reflexivity.
  - reflexivity.
Qed.

Lemma steps_items c c' :
  pending c -> steps c c' ->
  pending c' /\ Storage.items (snd c') = Storage.items (snd c).
Proof.
  intros Hc Hs. induction Hs as [c|c1 c2 c3 H12 IH H23]; [split; [exact Hc|reflexivity]|].
  destruct (IH Hc) as [H2 E2]. split.
  - eapply step_pending; eauto.
  - rewrite <- E2. eapply step_items; eauto.
Qed.

(** After the flag is set, no run of either effect changes anything. *)
Lemma steps_processed c c' :
  hasProcessed (fst c) = true -> steps c c' -> c' = c.
Proof.
  intros Hc Hs. induction Hs as [c|c1 c2 c3 H12 IH H23]; [reflexivity|].
  specialize (IH Hc). subst c2.
  destruct H23 as [p s|p s|p s]; simpl in Hc.
  - apply setup_processed, Hc.
  - apply clear_processed, Hc.
  - apply clear_processed, Hc.
Qed.

(** What the markup renders is an object, hence truthy. *)
Lemma renders_truthy v : renders v = true -> truthy v = true.
Proof.
  unfold renders. intros H. repeat (apply andb_true_iff in H as [H _]).
  unfold prop in H. destruct v; try reflexivity; discriminate.
Qed.

(** The results branch never gives the loading or the error view. *)
Lemma results_view_cases v :
  results_view v = ResultsView v \/ results_view v = Crashed.
Proof. unfold results_view. destruct (renders v); auto. Qed.

End ResultPageFacts.

(** C1. The hand-off is not cleared by the read. When the stored text parses
    to a result, the page takes its results branch on it (it shows the
    result, or throws on a value its markup cannot render) and the storage
    still holds the text afterwards, so that mounting the page again on the
    same session (a refresh) takes the same branch on the same result again
    instead of reaching the error state of the absent data. The second
    effect, which holds the removal, finds the flag already set by the
    first. *)
Theorem handoff_survives_first_read (s : Storage.t) (text : list N) (v : JS.value) :
  Storage.items s !! handoff_key = Some text ->
  JSON.parse text = Some v ->
  JS.truthy v = true ->
  ResultPage.render (fst (ResultPage.mount s)) = ResultPage.results_view v /\
  Storage.items (snd (ResultPage.mount s)) !! handoff_key = Some text /\
  ResultPage.render (fst (ResultPage.mount (snd (ResultPage.mount s)))) =
    ResultPage.results_view v /\
  ResultPage.render (fst (ResultPage.mount (snd (ResultPage.mount s)))) <>
    ResultPage.ErrorView ResultPage.no_data.
Proof.
  intros Hs Hp Ht.
  assert (R : forall s', Storage.items s' !! handoff_key = Some text ->
                ResultPage.render (fst (ResultPage.mount s')) = ResultPage.results_view v).
  { intros s' Hs'. rewrite (mount_parsed s' text v Hs' Hp).
    unfold ResultPage.render. simpl. rewrite Ht. reflexivity. }
  assert (I : Storage.items (snd (ResultPage.mount s)) !! handoff_key = Some text)
    by (rewrite mount_items; exact Hs).
  split; [apply R, Hs|]. split; [exact I|]. split; [apply R, I|].
  rewrite (R _ I). unfold ResultPage.results_view.
  destruct (ResultPage.renders v); discriminate.
Qed.

Lemma handoff_survives_first_read_witness :
  let s := Samples.session_with Samples.stored_result in
  let v := Samples.parsed Samples.stored_result in
  ResultPage.render (fst (ResultPage.mount s)) = ResultPage.ResultsView v /\
  Storage.items (snd (ResultPage.mount s)) !! handoff_key = Some Samples.stored_result /\
  ResultPage.render (fst (ResultPage.mount (snd (ResultPage.mount s)))) =
    ResultPage.ResultsView v /\
  ResultPage.render (fst (ResultPage.mount (snd (ResultPage.mount s)))) <>
    ResultPage.ErrorView ResultPage.no_data.
Proof.
  intros s v.
  apply (handoff_survives_first_read s Samples.stored_result v);
    vm_compute; reflexivity.
Defined.

(** C8. The first effect consumes the hand-off once. Its first run reads
    the storage once and applies what it read: the parsed value becomes the
    result, a text that does not parse or an absent or empty text becomes
    the matching error, loading ends and the flag is set. Any number of
    further runs leaves the page and the session as the first run left
    them, and the log of the storage holds the single read of the first
    run. *)
Theorem handoff_consumed_once (s : Storage.t) (n : nat) :
  let first := ResultPage.setup ResultPage.initial s in
  fst first =
    match Storage.items s !! handoff_key with
    | Some text =>
        if JS.nonempty text then
          match JSON.parse text with
          | Some v => ResultPage.Page v false None true
          | None => ResultPage.Page JS.VNull false (Some ResultPage.invalid_format) true
          end
        else ResultPage.Page JS.VNull false (Some ResultPage.no_data) true
    | None => ResultPage.Page JS.VNull false (Some ResultPage.no_data) true
    end /\
  snd first =
    Storage.Make (Storage.items s) (Storage.log s ++ [Storage.GetItem handoff_key]) /\
  ResultPage.hasProcessed (fst first) = true /\
  Nat.iter n ResultPage.rerun first = first /\
  Storage.reads handoff_key (Storage.log (snd (Nat.iter n ResultPage.rerun first))) =
    S (Storage.reads handoff_key (Storage.log s)).
Proof.
  intros first.
  assert (F : ResultPage.hasProcessed (fst first) = true) by apply setup_sets_flag.
  assert (I : Nat.iter n ResultPage.rerun first = first).
  { induction n as [|n IH]; [reflexivity|].
    simpl. rewrite IH. unfold ResultPage.rerun.
    rewrite setup_processed by exact F. destruct first; reflexivity. }
  split.
  { subst first. unfold ResultPage.setup. simpl.
    destruct (Storage.items s !! handoff_key) as [text|]; [|reflexivity].
    destruct (JS.nonempty text); [|reflexivity].
    destruct (JSON.parse text); reflexivity. }
  split; [reflexivity|].
  repeat split; [exact F | exact I |].
  rewrite I. subst first. unfold ResultPage.setup. simpl.
  apply reads_get.
Qed.

(** C10, as stated, fails on the empty string: it is not valid JSON, yet the
    load step takes it for an absent hand-off and reports that no data was
    found. *)
Lemma malformed_handoff_refuted :
  ~ (forall (s : Storage.t) (text : list N),
       Storage.items s !! handoff_key = Some text ->
       JSON.run text = JSON.SyntaxError ->
       fst (ResultPage.setup ResultPage.initial s) =
         ResultPage.Page JS.VNull false (Some ResultPage.invalid_format) true).
Proof.
  intros H. specialize (H (Samples.session_with []) [] eq_refl eq_refl).
  vm_compute in H. discriminate.
Qed.

(** C10, amended. A text under the hand-off key that is not valid JSON and
    is not empty is caught by the load step: the page ends in the error
    state of the invalid format, with the flag set. The empty text ends in
    the error state of the absent data, with the flag set too. *)
Theorem malformed_handoff_reported (s : Storage.t) (text : list N) :
  Storage.items s !! handoff_key = Some text ->
  JSON.run text = JSON.SyntaxError ->
  let p := fst (ResultPage.setup ResultPage.initial s) in
  ResultPage.hasProcessed p = true /\
  (text <> [] ->
     p = ResultPage.Page JS.VNull false (Some ResultPage.invalid_format) true /\
     ResultPage.render p = ResultPage.ErrorView ResultPage.invalid_format) /\
  (text = [] ->
     p = ResultPage.Page JS.VNull false (Some ResultPage.no_data) true /\
     ResultPage.render p = ResultPage.ErrorView ResultPage.no_data).
Proof.
  intros Hs Hr p. apply parse_None_iff in Hr.
  split; [apply setup_sets_flag|].
  subst p. unfold ResultPage.setup. simpl. rewrite Hs.
  split; intros Ht.
  - destruct text as [|c t]; [congruence|]. simpl. rewrite Hr. split; reflexivity.
  - subst text. split; reflexivity.
Qed.

Lemma malformed_handoff_reported_witness :
  let s := Samples.session_with (JS.lit "{not json") in
  let p := fst (ResultPage.setup ResultPage.initial s) in
  ResultPage.hasProcessed p = true /\
  (JS.lit "{not json" <> [] ->
     p = ResultPage.Page JS.VNull false (Some ResultPage.invalid_format) true /\
     ResultPage.render p = ResultPage.ErrorView ResultPage.invalid_format) /\
  (JS.lit "{not json" = [] ->
     p = ResultPage.Page JS.VNull false (Some ResultPage.no_data) true /\
     ResultPage.render p = ResultPage.ErrorView ResultPage.no_data).
Proof.
  intros s p.
  apply (malformed_handoff_reported s (JS.lit "{not json")); reflexivity.
Defined.




(** ** Batch validation *)

Section BatchFacts.
Import Batch.

Lemma filter_partition_length {A} (f : A -> bool) (l : list A) :
  length (List.filter f l) + length (List.filter (fun x => negb (f x)) l) = length l.
Proof.
  induction l as [|x l IH]; simpl; [reflexivity|].
  destruct (f x); simpl; lia.
Qed.

End BatchFacts.

(** C4. A batch of N ideas gives N results, one per idea and in the order
    of the ideas, whether the single validations succeed or fail; the
    counts of successes and failures add up to the total, which is N. *)
Theorem batch_one_result_per_input
  (validate_idea : list N -> list N + list (list N)) (queries : list (list N)) :
  let b := Batch.validate_batch validate_idea queries in
  length (Batch.results b) = length queries /\
  map Batch.query (Batch.results b) = queries /\
  Batch.total_queries b = length queries /\
  Batch.successful_queries b + Batch.failed_queries b = Batch.total_queries b.
Proof.
  intros b. subst b. unfold Batch.validate_batch. simpl.
  rewrite filter_partition_length, length_map. repeat split.
  induction queries as [|q qs IH]; simpl; [reflexivity|].
  rewrite IH. f_equal. unfold Batch.validate.
  destruct (validate_idea q); reflexivity.
Qed.

(** A batch in which the second of three ideas fails. *)
Example batch_with_a_failure :
  let validate_idea := fun idea : list N =>
    if JS.nonempty idea then inr [JS.lit "Validate demand first"]
    else inl (JS.lit "model call failed") in
  let b := Batch.validate_batch validate_idea [JS.lit "a"; []; JS.lit "c"] in
  map Batch.success (Batch.results b) = [true; false; true] /\
  Batch.successful_queries b = 2 /\ Batch.failed_queries b = 1 /\
  Batch.total_queries b = 3.
Proof. repeat split. Qed.

(** * Further properties *)

(** ** Trimming, splitting and joining *)

Section MoreStrings.
Import JS.

Lemma trimStart_suffix s : exists pre, s = pre ++ trimStart s /\ blank pre = true.
Proof.
  induction s as [|c s (pre & E & B)]; [exists []; split; reflexivity|].
  simpl. destruct (isWhiteSpace c) eqn:W.
  - exists (c :: pre). split; [simpl; f_equal; exact E|].
    unfold blank in *. simpl. rewrite W. exact B.
  - exists []. split; reflexivity.
Qed.

Lemma trimEnd_prefix s : exists post, s = trimEnd s ++ post /\ blank post = true.
Proof.
  unfold trimEnd. destruct (trimStart_suffix (rev s)) as (pre & E & B).
  exists (rev pre). split; [|rewrite blank_rev; exact B].
  rewrite <- rev_app_distr, <- E, rev_involutive. reflexivity.
Qed.

Lemma trimStart_fixed c t : isWhiteSpace c = false -> trimStart (c :: t) = c :: t.
Proof. intros H. simpl. rewrite H. reflexivity. Qed.

Lemma trimStart_idem s : trimStart (trimStart s) = trimStart s.
Proof.
  destruct (trimStart s) as [|c t] eqn:E; [reflexivity|].
  apply trimStart_fixed. eapply trimStart_head; eauto.
Qed.

Lemma trimEnd_idem s : trimEnd (trimEnd s) = trimEnd s.
Proof. unfold trimEnd. rewrite rev_involutive, trimStart_idem. reflexivity. Qed.

(** Trimming the end keeps a start that is trimmed. *)
Lemma trimStart_trimEnd s : trimStart s = s -> trimStart (trimEnd s) = trimEnd s.
Proof.
  intros H. destruct (trimEnd_prefix s) as (post & E & _).
  destruct (trimEnd s) as [|c t] eqn:T; [reflexivity|].
  apply trimStart_fixed. rewrite E in H. simpl in H.
  destruct (isWhiteSpace c) eqn:W; [|reflexivity].
  exfalso. destruct (trimStart_suffix (t ++ post)) as (pre & E' & _).
  apply (f_equal (@length N)) in H. rewrite E' in H at 2.
  simpl in H. rewrite length_app in H. lia.
Qed.

Lemma trim_idem s : trim (trim s) = trim s.
Proof.
  unfold trim. rewrite (trimStart_trimEnd (trimStart s) (trimStart_idem s)).
  apply trimEnd_idem.
Qed.

Lemma trim_In c s : In c (trim s) -> In c s.
Proof.
  unfold trim. intros H.
  destruct (trimEnd_prefix (trimStart s)) as (post & E & _).
  destruct (trimStart_suffix s) as (pre & E' & _).
  rewrite E'. apply in_or_app. right. rewrite E. apply in_or_app. left. exact H.
Qed.

Lemma split_no_sep sep s : Forall (fun w => ~ In sep w) (split sep s).
Proof.
  induction s as [|c s IH]; simpl; [repeat constructor; intros []|].
  destruct (N.eqb_spec c sep) as [->|Hne].
  - constructor; [intros []|exact IH].
  - destruct (split sep s) as [|w ws]; [repeat constructor; intros [?|[]]; congruence|].
    inversion IH; subst. constructor; [|assumption].
    intros [?|?]; [congruence|contradiction].
Qed.

Lemma split_single sep w : ~ In sep w -> split sep w = [w].
Proof.
  induction w as [|c w IH]; simpl; [reflexivity|]. intros H.
  destruct (N.eqb_spec c sep) as [->|Hne]; [exfalso; apply H; left; reflexivity|].
  rewrite IH by (intros ?; apply H; right; assumption). reflexivity.
Qed.

Lemma split_app_sep sep w r :
  ~ In sep w -> split sep (w ++ sep :: r) = w :: split sep r.
Proof.
  induction w as [|c w IH]; simpl; intros H.
  - rewrite N.eqb_refl. reflexivity.
  - destruct (N.eqb_spec c sep) as [->|Hne]; [exfalso; apply H; left; reflexivity|].
    rewrite IH by (intros ?; apply H; right; assumption). reflexivity.
Qed.

(** [a.join(sep).split(sep)] gives [a] back when [a] is not empty and no
    piece holds the separator. *)
Lemma split_join sep ws :
  ws <> [] -> Forall (fun w => ~ In sep w) ws -> split sep (join [sep] ws) = ws.
Proof.
  induction ws as [|w ws IH]; [congruence|]. intros _ H.
  inversion H as [|? ? Hw Hws]; subst.
  destruct ws as [|w' ws']; [apply split_single, Hw|].
  change (join [sep] (w :: w' :: ws')) with (w ++ sep :: join [sep] (w' :: ws')).
  rewrite split_app_sep by exact Hw. f_equal. apply IH; [discriminate|exact Hws].
Qed.

(** [s.split(sep).join(sep)] is [s]. *)
Lemma join_split sep s : join [sep] (split sep s) = s.
Proof.
  induction s as [|c s IH]; [reflexivity|]. simpl.
  destruct (N.eqb_spec c sep) as [->|Hne].
  - pose proof (split_not_nil sep s) as Hn.
    destruct (split sep s) as [|w ws]; [congruence|].
    change (join [sep] ([] :: w :: ws)) with (sep :: join [sep] (w :: ws)).
    rewrite IH. reflexivity.
  - pose proof (split_not_nil sep s) as Hn.
    destruct (split sep s) as [|w ws]; [congruence|].
    destruct ws as [|w' ws']; simpl in *; rewrite <- IH; reflexivity.
Qed.

End MoreStrings.

Section MoreTrends.
Import JS TrendsServer.

Lemma clean_keywords_spec k :
  Forall (fun w => nonempty w = true /\ ~ In (N_of_ascii ",") w /\ trim w = w)
    (clean_keywords k).
Proof.
  unfold clean_keywords. pose proof (split_no_sep (N_of_ascii ",") k) as H.
  induction H as [|w ws Hw Hws IH]; simpl; [constructor|].
  destruct (nonempty (trim w)) eqn:E; [|exact IH].
  constructor; [|exact IH]. repeat split.
  - exact E.
  - intros Hin. apply Hw. apply trim_In, Hin.
  - apply trim_idem.
Qed.

Lemma clean_keywords_nil k :
  clean_keywords k = [] -> forallb blank (split (N_of_ascii ",") k) = true.
Proof.
  unfold clean_keywords. induction (split _ k) as [|w ws IH]; simpl; [reflexivity|].
  destruct (nonempty (trim w)) eqn:E; [discriminate|].
  intros H. apply nonempty_false, trim_nil_iff in E. rewrite E. exact (IH H).
Qed.

Lemma clean_fixed ws :
  Forall (fun w => nonempty w = true /\ ~ In (N_of_ascii ",") w /\ trim w = w) ws ->
  List.filter (fun w => nonempty w) (map trim ws) = ws.
Proof.
  induction 1 as [|w ws (Hn & _ & Ht) _ IH]; [reflexivity|].
  simpl. rewrite Ht, Hn, IH. reflexivity.
Qed.

Lemma clean_keywords_idem k :
  clean_keywords (join (lit ",") (clean_keywords k)) = clean_keywords k.
Proof.
  pose proof (clean_keywords_spec k) as H.
  destruct (clean_keywords k) as [|w ws] eqn:E; [reflexivity|].
  unfold clean_keywords at 1.
  change (lit ",") with [N_of_ascii ","].
  rewrite split_join; [apply clean_fixed, H|discriminate|].
  eapply Forall_impl; [exact H|]. simpl. tauto.
Qed.

(** X1. Cleaning is idempotent: the keyword list the handler forwards, sent
    again as the [keywords] of a request, is cleaned to itself, so the
    search built from a forwarded [q] is the search that carried it. *)
Theorem cleaning_is_idempotent (key : value) k :
  clean_keywords (join (lit ",") (clean_keywords k)) = clean_keywords k /\
  search_for key (q (search_for key k)) = search_for key k.
Proof.
  split; [apply clean_keywords_idem|].
  unfold search_for. cbn [q]. rewrite clean_keywords_idem. reflexivity.
Qed.

(** X2. Every keyword the handler forwards is not empty, holds no comma and
    has no white space at either end; and the forwarded [q], split at its
    commas, gives exactly these keywords back. *)
Theorem forwarded_keywords_are_clean k :
  Forall (fun w => nonempty w = true /\ ~ In (N_of_ascii ",") w /\ trim w = w)
    (clean_keywords k) /\
  (clean_keywords k = [] \/
   split (N_of_ascii ",") (join (lit ",") (clean_keywords k)) = clean_keywords k).
Proof.
  pose proof (clean_keywords_spec k) as H. split; [exact H|].
  destruct (clean_keywords k) as [|w ws]; [left; reflexivity|right].
  change (lit ",") with [N_of_ascii ","].
  apply split_join; [discriminate|].
  eapply Forall_impl; [exact H|]. simpl. tauto.
Qed.

(** X4. The handler answers 400 exactly for the inputs without a keyword:
    a request with a segment that is not blank is never answered 400, and a
    parameter that is not a string is not either. *)
Theorem rejected_iff_no_keyword (getJson : search -> outcome) (key : value) (req : query) :
  (exists body, trends getJson key req = Response 400 body) <->
  no_keyword (keywords req) = true.
Proof.
  destruct req as [kw d]. cbn [keywords]. split.
  - intros [body H]. destruct kw as [|k|]; [reflexivity| |discriminate].
    cbn [no_keyword]. apply clean_keywords_nil.
    destruct (clean_keywords k) as [|w ws] eqn:E; [reflexivity|exfalso].
    rewrite (trends_valid getJson key k d) in H by (rewrite E; discriminate).
    destruct (getJson _) as [message|json|]; try discriminate.
    destruct (get _ _) as [e|]; [|discriminate].
    destruct (truthy e); discriminate.
  - intros H. destruct kw as [|k|]; [eexists; reflexivity| |discriminate].
    cbn [no_keyword] in H. unfold trends. cbn [keywords].
    destruct (missing (Str k)); [eexists; reflexivity|].
    rewrite (clean_keywords_blank k H). eexists; reflexivity.
Qed.

(** X3. A 200 answer is never made up: it is given only to a request whose
    [keywords] is a string with at least one keyword, its body is the reply
    of the backend to the search for these keywords, and the [error] member
    of that reply is falsy. *)
Theorem ok_answer_is_backend_reply (getJson : search -> outcome) (key : value) (req : query) body :
  trends getJson key req = Response 200 body ->
  exists k e,
    keywords req = Str k /\ clean_keywords k <> [] /\
    getJson (search_for key k) = Replied body /\
    get body (lit "error") = Some e /\ truthy e = false.
Proof.
  destruct req as [kw d]. intros H.
  destruct kw as [|k|]; [discriminate| |discriminate].
  destruct (clean_keywords k) as [|w ws] eqn:E.
  - exfalso. unfold trends in H. cbn [keywords] in H.
    destruct (missing (Str k)); [discriminate|]. rewrite E in H. discriminate.
  - assert (Hk : clean_keywords k <> []) by (rewrite E; discriminate).
    rewrite (trends_valid getJson key k d Hk) in H.
    destruct (getJson _) as [message|json|] eqn:G; try discriminate.
    destruct (get _ _) as [e|] eqn:Ge; [|discriminate].
    destruct (truthy e) eqn:T; [discriminate|].
    injection H as <-. exists k, e. rewrite E. repeat split; try assumption. discriminate.
Qed.

End MoreTrends.

Lemma ok_answer_is_backend_reply_witness :
  exists k e,
    TrendsServer.keywords
      (TrendsServer.Query (TrendsServer.Str (JS.lit "coffee, milk")) TrendsServer.Absent) =
      TrendsServer.Str k /\
    TrendsServer.clean_keywords k <> [] /\
    (fun _ : TrendsServer.search => TrendsServer.Replied Samples.readme_reply)
      (TrendsServer.search_for JS.VUndefined k) = TrendsServer.Replied Samples.readme_reply /\
    JS.get Samples.readme_reply (JS.lit "error") = Some e /\ JS.truthy e = false.
Proof.
  apply (ok_answer_is_backend_reply (fun _ => TrendsServer.Replied Samples.readme_reply)
           JS.VUndefined
           (TrendsServer.Query (TrendsServer.Str (JS.lit "coffee, milk")) TrendsServer.Absent)).
  reflexivity.
Defined.

(** ** The idea form, further *)

Section HomeFacts.
Import JS HomePage.
Variable fetch : request -> fetched.
Variable stringify : value -> list N.

Lemma guard_passes st : blank (idea st) = false -> nonempty (trim (idea st)) = true.
Proof.
  intros H. destruct (nonempty (trim (idea st))) eqn:E; [reflexivity|].
  apply nonempty_false, trim_nil_iff in E. congruence.
Qed.

(** The outcome of [handleSubmit] on an idea that passes the guard. *)
Lemma handleSubmit_sent st w :
  blank (idea st) = false ->
  handleSubmit fetch stringify st w =
    let req := validate_request stringify (idea st) in
    let w1 := World (session w) (sent w ++ [req]) (pushed w) in
    match fetch req with
    | NetworkError => (failed (State (idea st) true None), w1)
    | Http status text =>
        if ok status then
          match JSON.parse text with
          | None => (failed (State (idea st) true None), w1)
          | Some data =>
              (State (idea st) true None,
               World (Storage.Make (<[handoff_key := stringify data]> (Storage.items (session w)))
                        (Storage.log (session w) ++
                           [Storage.SetItem handoff_key (stringify data);
                            Storage.GetItem handoff_key]))
                     (sent w ++ [req]) (pushed w ++ [lit "/result"]))
          end
        else (failed (State (idea st) true None), w1)
    end.
Proof.
  intros H. unfold handleSubmit. rewrite (guard_passes st H). cbn [negb].
  change (Request _ _ _ _) with (validate_request stringify (idea st)).
  cbv zeta. destruct (fetch _) as [|status text]; [reflexivity|].
  destruct (ok status); cbn [negb]; [|reflexivity].
  destruct (JSON.parse text); [|reflexivity].
  unfold Storage.getItem, Storage.setItem. cbn. rewrite <- app_assoc. reflexivity.
Qed.

End HomeFacts.

(** X5. An idea that is not blank sends one request, whatever follows: a
    POST of the JSON text of [{query: idea}], the idea not trimmed, to the
    validation endpoint. *)
Theorem one_request_per_submit
  (fetch : HomePage.request -> HomePage.fetched) (stringify : JS.value -> list N)
  (st : HomePage.state) (w : HomePage.world) :
  JS.blank (HomePage.idea st) = false ->
  HomePage.sent (snd (HomePage.handleSubmit fetch stringify st w)) =
    HomePage.sent w ++ [HomePage.validate_request stringify (HomePage.idea st)].
Proof.
  intros H. rewrite (handleSubmit_sent fetch stringify st w H). cbv zeta.
  destruct (fetch _) as [|status text]; [reflexivity|].
  destruct (HomePage.ok status); [|reflexivity].
  destruct (JSON.parse text); reflexivity.
Qed.

Lemma one_request_per_submit_witness :
  let fetch := fun _ : HomePage.request => HomePage.NetworkError in
  let stringify := fun _ : JS.value => Samples.stored_result in
  let st := HomePage.State (JS.lit " an idea ") true None in
  let w := HomePage.World (Storage.Make ∅ []) [] [] in
  HomePage.sent (snd (HomePage.handleSubmit fetch stringify st w)) =
    HomePage.sent w ++ [HomePage.validate_request stringify (JS.lit " an idea ")].
Proof.
  intros fetch stringify st w.
  apply (one_request_per_submit fetch stringify st w). reflexivity.
Defined.

(** X6. When the request is rejected, or is answered outside 200-299, or
    with a body that is not JSON, the form stops loading and shows its one
    fixed message; the session storage is neither written nor read and no
    route is pushed. *)
Theorem failed_submit_keeps_session
  (fetch : HomePage.request -> HomePage.fetched) (stringify : JS.value -> list N)
  (st : HomePage.state) (w : HomePage.world) :
  JS.blank (HomePage.idea st) = false ->
  (forall status text,
     fetch (HomePage.validate_request stringify (HomePage.idea st)) = HomePage.Http status text ->
     HomePage.ok status = false \/ JSON.parse text = None) ->
  let out := HomePage.handleSubmit fetch stringify st w in
  fst out = HomePage.State (HomePage.idea st) false
              (Some (JS.lit "Failed to validate idea. Please try again.")) /\
  HomePage.session (snd out) = HomePage.session w /\
  HomePage.pushed (snd out) = HomePage.pushed w.
Proof.
  intros H F out. subst out. rewrite (handleSubmit_sent fetch stringify st w H). cbv zeta.
  destruct (fetch _) as [|status text] eqn:E; [repeat split|].
  destruct (F status text eq_refl) as [Hok|Hp].
  - rewrite Hok. repeat split.
  - destruct (HomePage.ok status); [rewrite Hp|]; repeat split.
Qed.

Lemma failed_submit_keeps_session_witness :
  let fetch := fun _ : HomePage.request => HomePage.Http 500 (JS.lit "Internal Server Error") in
  let stringify := fun _ : JS.value => Samples.stored_result in
  let st := HomePage.State (JS.lit "an idea") false None in
  let w := HomePage.World (Samples.session_with Samples.stored_maybe) [] [] in
  let out := HomePage.handleSubmit fetch stringify st w in
  fst out = HomePage.State (JS.lit "an idea") false
              (Some (JS.lit "Failed to validate idea. Please try again.")) /\
  HomePage.session (snd out) = HomePage.session w /\
  HomePage.pushed (snd out) = HomePage.pushed w.
Proof.
  intros fetch stringify st w.
  apply (failed_submit_keeps_session fetch stringify st w); [reflexivity|].
  intros status text H. injection H as <- <-. left. reflexivity.
Defined.

(** X7. On a 2xx answer with a JSON body the form stays loading without
    error, writes the serialised body under the hand-off key (over whatever
    was there), reads it back once, and pushes the route of the results
    page. *)
Theorem successful_submit_hands_over
  (fetch : HomePage.request -> HomePage.fetched) (stringify : JS.value -> list N)
  (st : HomePage.state) (w : HomePage.world) (status : N) (text : list N) (data : JS.value) :
  JS.blank (HomePage.idea st) = false ->
  fetch (HomePage.validate_request stringify (HomePage.idea st)) = HomePage.Http status text ->
  HomePage.ok status = true ->
  JSON.parse text = Some data ->
  let out := HomePage.handleSubmit fetch stringify st w in
  fst out = HomePage.State (HomePage.idea st) true None /\
  Storage.items (HomePage.session (snd out)) =
    <[handoff_key := stringify data]> (Storage.items (HomePage.session w)) /\
  Storage.log (HomePage.session (snd out)) =
    Storage.log (HomePage.session w) ++
      [Storage.SetItem handoff_key (stringify data); Storage.GetItem handoff_key] /\
  HomePage.pushed (snd out) = HomePage.pushed w ++ [JS.lit "/result"].
Proof.
  intros H F Hok Hp out. subst out.
  rewrite (handleSubmit_sent fetch stringify st w H). cbv zeta.
  rewrite F, Hok, Hp. repeat split.
Qed.

Lemma successful_submit_hands_over_witness :
  let fetch := fun _ : HomePage.request => HomePage.Http 200 Samples.stored_result in
  let stringify := fun _ : JS.value => Samples.stored_result in
  let st := HomePage.State (JS.lit "an idea") false None in
  let w := HomePage.World (Samples.session_with Samples.stored_maybe) [] [] in
  let out := HomePage.handleSubmit fetch stringify st w in
  fst out = HomePage.State (JS.lit "an idea") true None /\
  Storage.items (HomePage.session (snd out)) =
    <[handoff_key := Samples.stored_result]> (Storage.items (HomePage.session w)) /\
  Storage.log (HomePage.session (snd out)) =
    Storage.log (HomePage.session w) ++
      [Storage.SetItem handoff_key Samples.stored_result; Storage.GetItem handoff_key] /\
  HomePage.pushed (snd out) = HomePage.pushed w ++ [JS.lit "/result"].
Proof.
  intros fetch stringify st w.
  apply (successful_submit_hands_over fetch stringify st w 200 Samples.stored_result
           (Samples.parsed Samples.stored_result)); reflexivity.
Defined.

(** X8. The hand-off end to end: after a successful submit, the results page
    mounted on the session the form left shows the results view of the
    value that the stored text parses to, the stored text being the
    serialisation of what the validator answered, whenever that value is
    one the markup of the results view renders. *)
Theorem submitted_result_is_shown
  (fetch : HomePage.request -> HomePage.fetched) (stringify : JS.value -> list N)
  (st : HomePage.state) (w : HomePage.world) (status : N) (text : list N)
  (data shown : JS.value) :
  JS.blank (HomePage.idea st) = false ->
  fetch (HomePage.validate_request stringify (HomePage.idea st)) = HomePage.Http status text ->
  HomePage.ok status = true ->
  JSON.parse text = Some data ->
  JSON.parse (stringify data) = Some shown ->
  ResultPage.renders shown = true ->
  ResultPage.render
    (fst (ResultPage.mount
            (HomePage.session (snd (HomePage.handleSubmit fetch stringify st w))))) =
    ResultPage.ResultsView shown.
Proof.
  intros H F Hok Hp Hrt Hr.
  rewrite (handleSubmit_sent fetch stringify st w H). cbv zeta.
  rewrite F, Hok, Hp. cbn [snd HomePage.session].
  rewrite (mount_parsed _ (stringify data) shown); [|apply lookup_insert_eq|exact Hrt].
  unfold ResultPage.render, ResultPage.results_view. cbn [ResultPage.loading
    ResultPage.error ResultPage.result].
  rewrite (renders_truthy shown Hr), Hr. reflexivity.
Qed.

Lemma submitted_result_is_shown_witness :
  let fetch := fun _ : HomePage.request => HomePage.Http 200 Samples.stored_result in
  let stringify := fun _ : JS.value => Samples.stored_result in
  let st := HomePage.State (JS.lit "an idea") false None in
  let w := HomePage.World (Samples.session_with Samples.stored_maybe) [] [] in
  ResultPage.render
    (fst (ResultPage.mount
            (HomePage.session (snd (HomePage.handleSubmit fetch stringify st w))))) =
    ResultPage.ResultsView (Samples.parsed Samples.stored_result).
Proof.
  intros fetch stringify st w.
  apply (submitted_result_is_shown fetch stringify st w 200 Samples.stored_result
           (Samples.parsed Samples.stored_result));
    reflexivity.
Defined.

(** X9. The form never navigates without a hand-off: whenever [handleSubmit]
    pushes a route, the request was answered 2xx with a JSON body and the
    session holds the serialisation of that body under the hand-off key. *)
Theorem navigation_needs_stored_result
  (fetch : HomePage.request -> HomePage.fetched) (stringify : JS.value -> list N)
  (st : HomePage.state) (w : HomePage.world) :
  HomePage.pushed (snd (HomePage.handleSubmit fetch stringify st w)) <> HomePage.pushed w ->
  exists status text data,
    fetch (HomePage.validate_request stringify (HomePage.idea st)) = HomePage.Http status text /\
    HomePage.ok status = true /\ JSON.parse text = Some data /\
    Storage.items (HomePage.session (snd (HomePage.handleSubmit fetch stringify st w)))
      !! handoff_key = Some (stringify data).
Proof.
  destruct (JS.blank (HomePage.idea st)) eqn:B.
  - apply trim_nil_iff in B. unfold HomePage.handleSubmit. rewrite B. simpl. congruence.
  - rewrite (handleSubmit_sent fetch stringify st w B). cbv zeta.
    destruct (fetch _) as [|status text] eqn:E; [simpl; congruence|].
    destruct (HomePage.ok status) eqn:O; [|simpl; congruence].
    destruct (JSON.parse text) as [data|] eqn:P; [|simpl; congruence].
    intros _. exists status, text, data.
    split; [reflexivity|]. split; [exact O|]. split; [exact P|].
    cbn. apply lookup_insert_eq.
Qed.

(** ** The results page, further *)

Section MoreResultPage.
Import JS ResultPage.

Lemma mount_absent s :
  Storage.items s !! handoff_key = None ->
  fst (mount s) = Page VNull false (Some no_data) true.
Proof.
  intros H. rewrite mount_setup. unfold setup. simpl. rewrite H. reflexivity.
Qed.

Lemma mount_not_loading s : loading (fst (mount s)) = false.
Proof. rewrite mount_setup. reflexivity. Qed.

Lemma step_only_read s0 c c' : only_read s0 c -> step c c' -> only_read s0 c'.
Proof.
  intros (Hp & Hi & Hl) Hs.
  assert (P' : pending c') by (eapply step_pending; eauto).
  assert (I' : Storage.items (snd c') = Storage.items s0)
    by (rewrite <- Hi; eapply step_items; eauto).
  split; [exact P'|]. split; [exact I'|].
  unfold pending in Hp. destruct Hs as [p s|p s|p s]; cbn [fst snd] in Hp, Hl, Hi.
  - destruct Hl as [[F L]|[F L]].
    + right. split; [apply setup_sets_flag|].
      unfold setup. rewrite F. cbn. rewrite L. reflexivity.
    + right. rewrite setup_processed by exact F. split; assumption.
  - destruct (hasProcessed p) eqn:F.
    + rewrite clear_processed by exact F. cbn [fst snd]. rewrite F. exact Hl.
    + rewrite (Hp eq_refl), clear_null. cbn [fst snd]. rewrite F. exact Hl.
  - change (result initial) with VNull. rewrite clear_null. exact Hl.
Qed.

End MoreResultPage.

(** X10. With nothing under the hand-off key the page ends in the error
    state of the absent data, and the storage still has nothing under the
    key. *)
Theorem missing_handoff_reported (s : Storage.t) :
  Storage.items s !! handoff_key = None ->
  fst (ResultPage.mount s) =
    ResultPage.Page JS.VNull false (Some ResultPage.no_data) true /\
  ResultPage.render (fst (ResultPage.mount s)) = ResultPage.ErrorView ResultPage.no_data /\
  Storage.items (snd (ResultPage.mount s)) !! handoff_key = None.
Proof.
  intros H. rewrite (mount_absent s H), mount_items. repeat split. exact H.
Qed.

(** X11. A hand-off that is valid JSON for a falsy value ([null], [false],
    zero, the empty string) sets no error, yet the page shows the error view
    with its fallback message instead of results. *)
Theorem falsy_result_is_error (s : Storage.t) (text : list N) (v : JS.value) :
  Storage.items s !! handoff_key = Some text ->
  JSON.parse text = Some v ->
  JS.truthy v = false ->
  ResultPage.error (fst (ResultPage.mount s)) = None /\
  ResultPage.render (fst (ResultPage.mount s)) =
    ResultPage.ErrorView ResultPage.unable_to_load.
Proof.
  intros Hs Hp Ht. rewrite (mount_parsed s text v Hs Hp).
  unfold ResultPage.render. simpl. rewrite Ht. split; reflexivity.
Qed.

(** X12. Whatever the session holds, the mounted page has left the loading
    view and has its flag set. *)
Theorem mounted_page_never_loading (s : Storage.t) :
  ResultPage.render (fst (ResultPage.mount s)) <> ResultPage.LoadingView /\
  ResultPage.hasProcessed (fst (ResultPage.mount s)) = true.
Proof.
  split; [|rewrite mount_setup; apply setup_sets_flag].
  unfold ResultPage.render. rewrite mount_not_loading.
  destruct (ResultPage.error _) as [e|]; [destruct (JS.nonempty e)|];
    try destruct (negb _); try discriminate;
    destruct (results_view_cases (ResultPage.result (fst (ResultPage.mount s))))
      as [-> | ->]; discriminate.
Qed.

(** X13. However often and in whatever order the two effects run from the
    initial page, the items of the storage are those of the start and the
    calls made on it are at most one read of the hand-off key: nothing is
    ever written or removed. *)
Theorem effects_only_read (s : Storage.t) (c : ResultPage.page * Storage.t) :
  ResultPage.steps (ResultPage.initial, s) c ->
  Storage.items (snd c) = Storage.items s /\
  (Storage.log (snd c) = Storage.log s \/
   Storage.log (snd c) = Storage.log s ++ [Storage.GetItem handoff_key]).
Proof.
  intros H.
  assert (O : ResultPage.only_read s c).
  { remember (ResultPage.initial, s) as c0 eqn:E.
    induction H as [c|c1 c2 c3 H12 IH H23].
    - subst c. split; [intros _; reflexivity|]. split; [reflexivity|].
      left. split; reflexivity.
    - eapply step_only_read; eauto. }
  destruct O as (_ & I & [[_ L]|[_ L]]); split; auto.
Qed.

(** X14. After the mount, no further run of either effect, in any order and
    with a current or a stale [result], changes the page or the session. *)
Theorem effects_settle_after_mount (s : Storage.t) (c : ResultPage.page * Storage.t) :
  ResultPage.steps (ResultPage.mount s) c -> c = ResultPage.mount s.
Proof.
  apply steps_processed. rewrite mount_setup. apply setup_sets_flag.
Qed.

Section Scores.
Import JS ResultPage.
Local Open Scope Z_scope.

Lemma denom_pos d : 0 < denom d.
Proof. unfold denom. apply Z.pow_pos_nonneg; lia. Qed.

Lemma geq_mono c h d1 d2 :
  dle d1 d2 = true -> geq c h (Finite d1) = true -> geq c h (Finite d2) = true.
Proof.
  unfold dle, geq. pose proof (denom_pos d1) as P1. pose proof (denom_pos d2) as P2.
  destruct (Z.le_gt_cases 0 h) as [Hh|Hh].
  - assert (0 < 2 ^ h) by (apply Z.pow_pos_nonneg; lia).
    rewrite !Z.leb_le. intros Ha Hb.
    apply (Z.mul_le_mono_pos_r _ _ (denom d1)); [assumption|].
    transitivity (numer d1 * 2 ^ h * denom d2); [nia|nia].
  - rewrite Z.pow_neg_r by lia. rewrite !Z.leb_le. nia.
Qed.

Lemma leq_mono c h d1 d2 :
  dle d1 d2 = true -> leq c h (Finite d2) = true -> leq c h (Finite d1) = true.
Proof.
  unfold dle, leq. pose proof (denom_pos d1) as P1. pose proof (denom_pos d2) as P2.
  destruct (Z.le_gt_cases 0 h) as [Hh|Hh].
  - assert (0 < 2 ^ h) by (apply Z.pow_pos_nonneg; lia).
    rewrite !Z.leb_le. intros Ha Hb.
    apply (Z.mul_le_mono_pos_r _ _ (denom d2)); [assumption|].
    transitivity (numer d2 * 2 ^ h * denom d1); [nia|nia].
  - rewrite Z.pow_neg_r by lia. rewrite !Z.leb_le. nia.
Qed.

End Scores.

(** X15. The score colours are monotone in the score: a higher opportunity
    score never gets a worse colour, and a higher risk score never gets a
    better one. *)
Theorem score_colour_monotone (d1 d2 : JS.decimal) :
  JS.dle d1 d2 = true ->
  ResultPage.score_rank (ResultPage.getScoreColor (JS.Finite d1) ResultPage.opportunity) <=
    ResultPage.score_rank (ResultPage.getScoreColor (JS.Finite d2) ResultPage.opportunity) /\
  ResultPage.score_rank (ResultPage.getScoreColor (JS.Finite d2) ResultPage.risk) <=
    ResultPage.score_rank (ResultPage.getScoreColor (JS.Finite d1) ResultPage.risk).
Proof.
  intros H. unfold ResultPage.getScoreColor. split.
  - destruct (JS.geq 8 51 (JS.Finite d1)) eqn:A.
    { rewrite (geq_mono _ _ _ _ H A). reflexivity. }
    destruct (JS.geq 6 51 (JS.Finite d1)) eqn:B.
    { rewrite (geq_mono _ _ _ _ H B).
      destruct (JS.geq 8 51 (JS.Finite d2)); vm_compute; lia. }
    destruct (JS.geq 8 51 (JS.Finite d2)), (JS.geq 6 51 (JS.Finite d2)); vm_compute; lia.
  - destruct (JS.leq 3 52 (JS.Finite d2)) eqn:A.
    { rewrite (leq_mono _ _ _ _ H A). reflexivity. }
    destruct (JS.leq 6 51 (JS.Finite d2)) eqn:B.
    { rewrite (leq_mono _ _ _ _ H B).
      destruct (JS.leq 3 52 (JS.Finite d1)); vm_compute; lia. }
    destruct (JS.leq 3 52 (JS.Finite d1)), (JS.leq 6 51 (JS.Finite d1)); vm_compute; lia.
Qed.

Lemma navigation_needs_stored_result_witness :
  let fetch := fun _ : HomePage.request => HomePage.Http 200 Samples.stored_result in
  let stringify := fun _ : JS.value => Samples.stored_result in
  let st := HomePage.State (JS.lit "an idea") false None in
  let w := HomePage.World (Storage.Make ∅ []) [] [] in
  exists status text data,
    fetch (HomePage.validate_request stringify (HomePage.idea st)) = HomePage.Http status text /\
    HomePage.ok status = true /\ JSON.parse text = Some data /\
    Storage.items (HomePage.session (snd (HomePage.handleSubmit fetch stringify st w)))
      !! handoff_key = Some (stringify data).
Proof.
  intros fetch stringify st w.
  apply (navigation_needs_stored_result fetch stringify st w).
  vm_compute. discriminate.
Defined.

Lemma missing_handoff_reported_witness :
  let s := Storage.Make ∅ [] in
  fst (ResultPage.mount s) =
    ResultPage.Page JS.VNull false (Some ResultPage.no_data) true /\
  ResultPage.render (fst (ResultPage.mount s)) = ResultPage.ErrorView ResultPage.no_data /\
  Storage.items (snd (ResultPage.mount s)) !! handoff_key = None.
Proof. intros s. apply (missing_handoff_reported s). reflexivity. Defined.

Lemma falsy_result_is_error_witness :
  let s := Samples.session_with Samples.stored_null in
  ResultPage.error (fst (ResultPage.mount s)) = None /\
  ResultPage.render (fst (ResultPage.mount s)) =
    ResultPage.ErrorView ResultPage.unable_to_load.
Proof.
  intros s. apply (falsy_result_is_error s Samples.stored_null JS.VNull); reflexivity.
Defined.

Lemma effects_only_read_witness :
  let s := Samples.session_with Samples.stored_result in
  let c := ResultPage.clear JS.VNull (fst (ResultPage.setup ResultPage.initial s))
             (snd (ResultPage.setup ResultPage.initial s)) in
  Storage.items (snd c) = Storage.items s /\
  (Storage.log (snd c) = Storage.log s \/
   Storage.log (snd c) = Storage.log s ++ [Storage.GetItem handoff_key]).
Proof.
  intros s c. apply (effects_only_read s c).
  eapply ResultPage.steps_step;
    [eapply ResultPage.steps_step; [apply ResultPage.steps_refl|apply ResultPage.step_setup]|].
  destruct (ResultPage.setup ResultPage.initial s) as [p1 s1].
  apply (ResultPage.step_clear_stale p1 s1).
Defined.

Lemma effects_settle_after_mount_witness :
  let s := Samples.session_with Samples.stored_result in
  ResultPage.clear (ResultPage.result (fst (ResultPage.mount s)))
    (fst (ResultPage.mount s)) (snd (ResultPage.mount s)) = ResultPage.mount s.
Proof.
  intros s. apply (effects_settle_after_mount s).
  eapply ResultPage.steps_step; [apply ResultPage.steps_refl|].
  destruct (ResultPage.mount s) as [p1 s1]. apply (ResultPage.step_clear p1 s1).
Defined.

Lemma score_colour_monotone_witness :
  let d1 := JS.Decimal false 55 (-1) in
  let d2 := JS.Decimal false 9 0 in
  ResultPage.score_rank (ResultPage.getScoreColor (JS.Finite d1) ResultPage.opportunity) <=
    ResultPage.score_rank (ResultPage.getScoreColor (JS.Finite d2) ResultPage.opportunity) /\
  ResultPage.score_rank (ResultPage.getScoreColor (JS.Finite d2) ResultPage.risk) <=
    ResultPage.score_rank (ResultPage.getScoreColor (JS.Finite d1) ResultPage.risk).
Proof.
  intros d1 d2. apply (score_colour_monotone d1 d2). reflexivity.
Defined.

Section IntegerScores.
Import JS ResultPage.
Local Open Scope Z_scope.

Lemma integer_score_value n :
  integer_score n = Finite (Decimal (n <? 0) (Z.abs_N n) 0) /\
  numer (Decimal (n <? 0) (Z.abs_N n) 0) = n /\
  denom (Decimal (n <? 0) (Z.abs_N n) 0) = 1.
Proof.
  split; [reflexivity|]. unfold numer, denom. cbn [neg mant exp10].
  change (Z.max 0 (- 0)) with 0. change (Z.max 0 0) with 0.
  rewrite Z.pow_0_r, N2Z.inj_abs_N. split; [|reflexivity].
  destruct (Z.ltb_spec n 0); lia.
Qed.

Lemma pow2_ge_2 h : 0 < h -> 2 <= 2 ^ h.
Proof.
  intros Hh. change 2 with (2 ^ 1) at 1. apply Z.pow_le_mono_r; lia.
Qed.

Lemma geq_integer c h n : 0 < h -> geq c h (integer_score n) = (c <=? n).
Proof.
  intros Hh. destruct (integer_score_value n) as (-> & Hn & Hd).
  unfold geq. rewrite Hn, Hd. pose proof (pow2_ge_2 h Hh) as P.
  generalize dependent (2 ^ h). intros p P.
  destruct (Z.leb_spec c n); [apply Z.leb_le|apply Z.leb_gt]; nia.
Qed.

Lemma leq_integer c h n : 0 < h -> leq c h (integer_score n) = (n <=? c).
Proof.
  intros Hh. destruct (integer_score_value n) as (-> & Hn & Hd).
  unfold leq. rewrite Hn, Hd. pose proof (pow2_ge_2 h Hh) as P.
  generalize dependent (2 ^ h). intros p P.
  destruct (Z.leb_spec n c); [apply Z.leb_le|apply Z.leb_gt]; nia.
Qed.

End IntegerScores.

(** X16. On integer scores the bands are those of the source: opportunity
    is green from 8, yellow for 6 and 7, red below; risk is green up to 3,
    yellow for 4 to 6, red above. *)
Theorem integer_score_bands (n : Z) :
  ResultPage.getScoreColor (ResultPage.integer_score n) ResultPage.opportunity =
    (if (8 <=? n)%Z then ResultPage.score_green
     else if (6 <=? n)%Z then ResultPage.score_yellow
     else ResultPage.score_red) /\
  ResultPage.getScoreColor (ResultPage.integer_score n) ResultPage.risk =
    (if (n <=? 3)%Z then ResultPage.score_green
     else if (n <=? 6)%Z then ResultPage.score_yellow
     else ResultPage.score_red).
Proof.
  unfold ResultPage.getScoreColor.
  rewrite !geq_integer, !leq_integer by lia. split; reflexivity.
Qed.

(** ** The NestJS client, interest over time *)

(** X17. The request the controller sends for interest over time never
    lacks a country or a time frame: a body that can be read is posted to
    the route under the base address, which is never empty, with its
    keyword as it is, with its country when that is truthy and [US]
    otherwise, and with its time frame when that is truthy and [today 12-m]
    otherwise; a rejection comes back as an exception of status 500 that
    carries the message. *)
Theorem interest_over_time_defaults
  (env : option (list N)) (http : Nest.call -> Nest.settled)
  (body keyword c t : JS.value) :
  JS.get body (JS.lit "keyword") = Some keyword ->
  JS.get body (JS.lit "country") = Some c ->
  JS.get body (JS.lit "timeframe") = Some t ->
  let country := if JS.truthy c then c else JS.VString (JS.lit "US") in
  let timeframe := if JS.truthy t then t else JS.VString (JS.lit "today 12-m") in
  JS.truthy country = true /\ JS.truthy timeframe = true /\
  JS.nonempty (Nest.apiBaseUrl env) = true /\
  Nest.controller_getInterestOverTime env http body =
    Some (match http (Nest.Post (Nest.apiBaseUrl env ++ JS.lit "/trends/interest-over-time")
                        (JS.VObject [(JS.lit "keyword", keyword);
                                     (JS.lit "country", country);
                                     (JS.lit "timeframe", timeframe)])) with
          | Nest.Fulfilled data => inr data
          | Nest.Rejected message =>
              inl (Nest.Exception
                     (JS.lit "Failed to get interest over time: " ++ message) 500)
          end).
Proof.
  intros Hk Hc Ht country timeframe.
  assert (Hu : JS.nonempty (Nest.apiBaseUrl env) = true).
  { unfold Nest.apiBaseUrl. destruct env as [u|]; [|reflexivity].
    destruct (JS.nonempty u) eqn:E; [exact E|reflexivity]. }
  assert (Hd : forall v d0, JS.truthy v = true -> Nest.defaulted v d0 = v)
    by (intros v d0 Hv; destruct v; try reflexivity; discriminate).
  assert (Tc : JS.truthy country = true)
    by (subst country; destruct (JS.truthy c) eqn:E; [exact E|reflexivity]).
  assert (Tt : JS.truthy timeframe = true)
    by (subst timeframe; destruct (JS.truthy t) eqn:E; [exact E|reflexivity]).
  split; [exact Tc|]. split; [exact Tt|]. split; [exact Hu|].
  unfold Nest.controller_getInterestOverTime. rewrite Hk, Hc, Ht.
  unfold Nest.getInterestOverTime.
  change (Nest.or_else c (JS.VString (JS.lit "US"))) with country.
  change (Nest.or_else t (JS.VString (JS.lit "today 12-m"))) with timeframe.
  rewrite (Hd _ _ Tc), (Hd _ _ Tt). reflexivity.
Qed.

Lemma interest_over_time_defaults_witness :
  let body := Samples.parsed
                (Samples.text "{'keyword':'remote work','country':'','timeframe':'today 3-m'}") in
  let http := fun _ : Nest.call => Nest.Rejected (JS.lit "timeout") in
  JS.truthy (JS.VString (JS.lit "US")) = true /\
  JS.truthy (JS.VString (JS.lit "today 3-m")) = true /\
  JS.nonempty (Nest.apiBaseUrl (Some [])) = true /\
  Nest.controller_getInterestOverTime (Some []) http body =
    Some (match http (Nest.Post (Nest.apiBaseUrl (Some []) ++ JS.lit "/trends/interest-over-time")
                        (JS.VObject [(JS.lit "keyword", JS.VString (JS.lit "remote work"));
                                     (JS.lit "country", JS.VString (JS.lit "US"));
                                     (JS.lit "timeframe", JS.VString (JS.lit "today 3-m"))])) with
          | Nest.Fulfilled data => inr data
          | Nest.Rejected message =>
              inl (Nest.Exception
                     (JS.lit "Failed to get interest over time: " ++ message) 500)
          end).
Proof.
  intros body http.
  apply (interest_over_time_defaults (Some []) http body
           (JS.VString (JS.lit "remote work")) (JS.VString [])
           (JS.VString (JS.lit "today 3-m")));
    reflexivity.
Defined.

(** ** The declared interface and the markup *)

Section Interface.
Import JS ResultPage.

Lemma member_prop v k (P Q : value -> bool) :
  (forall x, P x = true -> Q x = true) ->
  member v k P = true -> prop v k Q = true.
Proof.
  intros PQ. unfold member, prop. destruct v; try discriminate.
  simpl. destruct (lookup_member (lit k) members); [apply PQ|discriminate].
Qed.

Lemma array_of_impl (P Q : value -> bool) v :
  (forall x, P x = true -> Q x = true) ->
  array_of P v = true -> array_of Q v = true.
Proof.
  intros PQ. unfold array_of. destruct v; try discriminate.
  induction items as [|x xs IH]; simpl; [reflexivity|].
  intros H. apply andb_true_iff in H as [Hx Hxs].
  rewrite (PQ x Hx). exact (IH Hxs).
Qed.

Lemma string_is_child x : is_string x = true -> valid_child x = true.
Proof. destruct x; try discriminate; reflexivity. Qed.

Lemma number_is_child x : is_number x = true -> valid_child x = true.
Proof. destruct x; try discriminate; reflexivity. Qed.

(** A value of the declared interface has all that the markup reads. *)
Lemma conforms_renders v : conforms v = true -> renders v = true.
Proof.
  unfold conforms, renders. intros H. rewrite !andb_true_iff in H.
  destruct H as (((((((Hsu & Hq) & Hrecs) & Htd) & Ho) & Hr) & Hrec) & Hpt).
  repeat (apply andb_true_iff; split).
  - eapply member_prop; [|exact Hpt]. auto.
  - eapply member_prop; [|exact Hq]. apply string_is_child.
  - eapply member_prop; [|exact Ho]. apply number_is_child.
  - eapply member_prop; [|exact Hr]. apply number_is_child.
  - eapply member_prop; [|exact Hrec]. apply string_is_child.
  - eapply member_prop; [|exact Htd]. intros td Hi.
    eapply member_prop; [|exact Hi]. intros iot Hiot. cbv beta in Hiot.
    apply andb_true_iff in Hiot as [_ Hav].
    eapply member_prop; [|exact Hav]. intros av. apply array_of_impl. intros avg Havg.
    apply andb_true_iff in Havg as [Hx Hv].
    apply andb_true_iff; split.
    + eapply member_prop; [|exact Hx]. apply string_is_child.
    + eapply member_prop; [|exact Hv]. apply number_is_child.
  - eapply member_prop; [|exact Hrecs]. intros rs. apply array_of_impl, string_is_child.
Qed.

End Interface.

(** X19. A stored result that has every member of the interface the page
    declares, with the declared types, is shown: the markup of the results
    view never throws on it. *)
Theorem conforming_result_is_shown (s : Storage.t) (text : list N) (v : JS.value) :
  Storage.items s !! handoff_key = Some text ->
  JSON.parse text = Some v ->
  ResultPage.conforms v = true ->
  ResultPage.render (fst (ResultPage.mount s)) = ResultPage.ResultsView v.
Proof.
  intros Hs Hp Hc. apply conforms_renders in Hc.
  rewrite (mount_parsed s text v Hs Hp).
  unfold ResultPage.render, ResultPage.results_view.
  cbn [ResultPage.loading ResultPage.error ResultPage.result].
  rewrite (renders_truthy v Hc), Hc. reflexivity.
Qed.

Lemma conforming_result_is_shown_witness :
  ResultPage.render (fst (ResultPage.mount (Samples.session_with Samples.stored_maybe))) =
    ResultPage.ResultsView (Samples.parsed Samples.stored_maybe).
Proof.
  apply (conforming_result_is_shown (Samples.session_with Samples.stored_maybe)
           Samples.stored_maybe (Samples.parsed Samples.stored_maybe));
    reflexivity.
Defined.

(** A handled failure of the validator, stored as it is answered, has no
    processing time: the results view throws on it. *)
Example failure_result_crashes :
  ResultPage.render (fst (ResultPage.mount (Samples.session_with Samples.stored_failure))) =
    ResultPage.Crashed.
Proof. reflexivity. Qed.
